(** * upscale_to_4k.py: a batch 4K upscaler driving ffmpeg

    This development embeds [upscale_to_4k.py] function by function and
    proves properties of its duration formatter, its capability detector,
    its command builders, its progress/ETA loop and its batch loop.

    Modelling conventions.
    - Python [int] is [Z].
    - A finite Python [float] is an exact rational [Q]: rounding error is
      not modelled.  Where the source distinguishes the special values
      ([float("inf")], the result of a comparison with NaN) the type
      [pyfloat] keeps them apart.  What this leaves out: the sum
      [seconds + 0.5] of the formatter is exact here and rounded in the
      program, so the program may print one second more than the exact
      sum gives; and [float(text)] is taken with finite results, so a
      duration and a speed that are both infinite, whose quotient is NaN
      in the program, do not occur here.
    - The conversion of an [int] to a float raises [OverflowError] from
      [2**1024 - 2**970] on, as in the program.
    - A function that can raise returns [result A = exn + A].
    - Code that talks to the operating system (subprocesses, the file
      system) runs in the monad [M], which threads an abstract world and
      records what was printed and which commands were started. *)

From Stdlib Require Import ZArith QArith Qminmax Qround Qabs.
From Stdlib Require Import String Ascii List Sorted Bool Lia Lqa.
From Stdlib Require Import DecimalString.
Import ListNotations.

Open Scope string_scope.
Open Scope Z_scope.

(** ** Exceptions and results *)

Inductive exn : Type :=
| ValueError
| KeyError
| IndexError
| TypeError
| AttributeError
| OverflowError
| ZeroDivisionError
| OSError
| FileNotFoundError (msg : string)
| CalledProcessError
| JSONDecodeError
| RuntimeError (msg : string).

Definition result (A : Type) : Type := (exn + A)%type.

Definition rbind {A B : Type} (r : result A) (f : A -> result B) : result B :=
  match r with
  | inl e => inl e
  | inr a => f a
  end.

Declare Scope result_scope.
Delimit Scope result_scope with result.
Notation "'do' x <- r ; k" := (rbind r (fun x => k))
  (at level 10, x pattern, r at level 100, k at level 200) : result_scope.

(** ** Floats *)

Inductive pyfloat : Type :=
| Fin (q : Q)
| PInf
| NInf
| NaN.

(** [x < 0] on floats: false on NaN. *)
Definition pyfloat_ltb0 (x : pyfloat) : bool :=
  match x with
  | Fin q => match q ?= 0 with Lt => true | _ => false end
  | NInf => true
  | PInf | NaN => false
  end%Q.

(** [x == float("inf")]. *)
Definition pyfloat_is_inf (x : pyfloat) : bool :=
  match x with
  | PInf => true
  | _ => false
  end.

(** [x + 0.5]. *)
Definition pyfloat_add_half (x : pyfloat) : pyfloat :=
  match x with
  | Fin q => Fin (q + (1 # 2))%Q
  | other => other
  end.

(** [int(x)]: truncation toward zero; NaN and the infinities raise. *)
Definition int_of_float (x : pyfloat) : result Z :=
  match x with
  | Fin q => inr (match (q ?= 0)%Q with Lt => Qceiling q | _ => Qfloor q end)
  | PInf | NInf => inl OverflowError
  | NaN => inl ValueError
  end.

(** ** Strings *)

(** [str(n)] for an integer. *)
Definition str_of_int (n : Z) : string := NilZero.string_of_int (Z.to_int n).

(** [f"{n:02d}"]: at least two characters, padded with zeros after the sign. *)
Definition fmt_02d (n : Z) : string :=
  if 0 <=? n then
    (if n <? 10 then "0" ++ str_of_int n else str_of_int n)
  else str_of_int n.

(** ** Utilities *)

Definition placeholder : string := "??:??:??".

Definition fmt_hms (seconds : option pyfloat) : result string :=
  match seconds with
  | None => inr placeholder
  | Some x =>
      if pyfloat_ltb0 x || pyfloat_is_inf x then inr placeholder
      else
        (do s <- int_of_float (pyfloat_add_half x);
         let h := s / 3600 in
         let m := (s mod 3600) / 60 in
         let sec := s mod 60 in
         inr (fmt_02d h ++ ":" ++ fmt_02d m ++ ":" ++ fmt_02d sec))%result
  end.


(** ** Text operations used by the source

    Strings are sequences of 8-bit characters; the operations below are the
    Python ones on ASCII text. *)

(** The ASCII characters [str.strip()] removes. *)
Definition is_space (c : ascii) : bool :=
  let n := nat_of_ascii c in
  (((9 <=? n) && (n <=? 13)) || ((28 <=? n) && (n <=? 32)))%nat.

Fixpoint lstrip (s : string) : string :=
  match s with
  | EmptyString => EmptyString
  | String c r => if is_space c then lstrip r else s
  end.

Definition reverse (s : string) : string :=
  string_of_list_ascii (rev (list_ascii_of_string s)).

(** [s.strip()]. *)
Definition strip (s : string) : string :=
  reverse (lstrip (reverse (lstrip s))).

(** [needle in hay]. *)
Fixpoint contains (needle hay : string) : bool :=
  String.prefix needle hay
  || match hay with
     | EmptyString => false
     | String _ r => contains needle r
     end.

(** [s.split("=", 1)] for an [s] that holds an ["="]: the text before the
    first ["="] and the text after it. *)
Fixpoint split_eq (s : string) : string * string :=
  match s with
  | EmptyString => (EmptyString, EmptyString)
  | String c r =>
      if Ascii.eqb c "="%char then (EmptyString, r)
      else let (k, v) := split_eq r in (String c k, v)
  end.

Definition lower_char (c : ascii) : ascii :=
  let n := nat_of_ascii c in
  if ((65 <=? n) && (n <=? 90))%nat then ascii_of_nat (n + 32) else c.

(** [s.lower()]. *)
Fixpoint lower (s : string) : string :=
  match s with
  | EmptyString => EmptyString
  | String c r => String (lower_char c) (lower r)
  end.

(** [s.replace("x", "")]. *)
Fixpoint remove_x (s : string) : string :=
  match s with
  | EmptyString => EmptyString
  | String c r => if Ascii.eqb c "x"%char then remove_x r else String c (remove_x r)
  end.

(** The ASCII line boundaries of [str.splitlines()] other than ["\r\n"]. *)
Definition is_line_break (c : ascii) : bool :=
  let n := nat_of_ascii c in
  (((10 <=? n) && (n <=? 13)) || ((28 <=? n) && (n <=? 30)))%nat.

Fixpoint splitlines_from (cur s : string) : list string :=
  match s with
  | EmptyString => if String.eqb cur EmptyString then [] else [cur]
  | String c r =>
      if is_line_break c then
        match r with
        | String c2 r2 =>
            if Ascii.eqb c "013"%char && Ascii.eqb c2 "010"%char
            then cur :: splitlines_from EmptyString r2
            else cur :: splitlines_from EmptyString r
        | EmptyString => [cur]
        end
      else splitlines_from (cur ++ String c EmptyString) r
  end.

(** [s.splitlines()]. *)
Definition splitlines (s : string) : list string := splitlines_from EmptyString s.

(** [s.splitlines()[-1]]. *)
Definition last_line (s : string) : result string :=
  match rev (splitlines s) with
  | [] => inl IndexError
  | l :: _ => inr l
  end.

(** [":".join(parts)]. *)
Fixpoint join_colon (parts : list string) : string :=
  match parts with
  | [] => EmptyString
  | [x] => x
  | x :: rest => x ++ ":" ++ join_colon rest
  end.

(** ** Parsed JSON documents *)

#[local] Set Warnings "-register-all".

Inductive json : Type :=
| JNull
| JBool (b : bool)
| JInt (n : Z)
| JFloat (q : Q)
| JStr (s : string)
| JArr (items : list json)
| JObj (fields : list (string * json)).

(** ** Builtins taken as given

    [py_int] and [py_float] are [int(text)] and [float(text)], [None] when
    they raise [ValueError]; [float] is taken with finite results.
    [json_loads] is [json.loads], [None] when it raises. *)

Class Builtins : Type := {
  py_int : string -> option Z;
  py_float : string -> option Q;
  json_loads : string -> option json
}.

(** ** Configuration: the module-level constants *)

Class Config : Type := {
  MODE : string;
  CPU_CRF : Z;
  CPU_PRESET : string;
  CPU_10BIT : bool;
  QSV_GLOBAL_QUALITY : Z;
  SKIP_IF_4K_OR_HIGHER : bool;
  PRINT_EVERY_SECONDS : Q;
  ETA_AVG_WINDOW_SECONDS : Q
}.

(** The values the source file sets. *)
Definition source_config : Config := {|
  MODE := "intel_qsv";
  CPU_CRF := 16;
  CPU_PRESET := "slow";
  CPU_10BIT := true;
  QSV_GLOBAL_QUALITY := 20;
  SKIP_IF_4K_OR_HIGHER := true;
  PRINT_EVERY_SECONDS := 2;
  ETA_AVG_WINDOW_SECONDS := 60
|}.

Definition INPUT_DIR : string := "/media/daniel/Aether OS".
Definition OUTPUT_DIR : string := "/home/daniel/Videos/files".

Definition VIDEO_EXTENSIONS : list string :=
  [".mp4"; ".mkv"; ".avi"; ".mov"; ".webm"; ".flv"; ".mpg"; ".mpeg"; ".m4v"].

(** ** The outside world *)

(** A path under a directory, with the attributes pathlib derives from it. *)
Record path : Type := {
  path_dir : string;
  path_name : string;
  path_stem : string;
  path_suffix : string
}.

(** [str(p)]. *)
Definition path_str (p : path) : string := path_dir p ++ "/" ++ path_name p.

(** [OUTPUT_DIR / name], for a [name] that has no suffix of interest. *)
Definition output_path (name : string) : path :=
  {| path_dir := OUTPUT_DIR; path_name := name; path_stem := name; path_suffix := EmptyString |}.

(** What a started ffmpeg does: the clock before it is started, the lines of
    its standard output, each with the clock reading [time.time()] gives
    while the line is handled, its exit code and its standard error. *)
Record process : Type := {
  p_start : Q;
  p_stdout : list (Q * string);
  p_returncode : Z;
  p_stderr : string
}.

Class World (W : Type) : Type := {
  (** [subprocess.run(cmd, check=True, capture_output=True, text=True).stdout] *)
  sys_run : list string -> W -> result string * W;
  (** [subprocess.Popen(cmd, ...)], [None] when the process cannot be started *)
  sys_popen : list string -> W -> option process * W;
  (** [Path.exists()] *)
  sys_exists : string -> W -> bool;
  (** [Path.mkdir(parents=True, exist_ok=True)] *)
  sys_mkdir : string -> W -> option exn * W;
  (** [Path.iterdir()], each entry with [Path.is_file()] *)
  sys_iterdir : string -> W -> result (list (path * bool))
}.

(** ** What the program prints and starts *)

Inductive message : Type :=
| MsgNoVideos
| MsgQsvWarning
| MsgSkip4K (name : string) (w h : Z)
| MsgSkipExists (name : string)
| MsgEncoding (name : string) (w h : Z) (mode : string)
| MsgQsvFailed
| MsgLine (text : string)
| MsgSkipCpuFallback (name : string)
| MsgDuration (hms name : string)
| MsgProgress (pct : Q) (video total : string) (speed : Q) (eta wall : string)
| MsgDone
| MsgBatchComplete.

Inductive event : Type :=
| Print (m : message)
| Run (cmd : list string)
| Popen (cmd : list string).

(** ** The monad of effectful code *)

Definition M (W A : Type) : Type := W -> list event * W * result A.

Definition ret {W A : Type} (a : A) : M W A := fun w => ([], w, inr a).

Definition raise {W A : Type} (e : exn) : M W A := fun w => ([], w, inl e).

Definition bind {W A B : Type} (m : M W A) (f : A -> M W B) : M W B :=
  fun w =>
    match m w with
    | (t, w1, inl e) => (t, w1, inl e)
    | (t, w1, inr a) =>
        match f a w1 with
        | (t', w2, r) => ((t ++ t')%list, w2, r)
        end
    end.

Definition print {W : Type} (m : message) : M W unit :=
  fun w => ([Print m], w, inr tt).

Definition lift {W A : Type} (r : result A) : M W A := fun w => ([], w, r).

(** [try: body except RuntimeError as e: handler(e)]; the handler receives
    [str(e)]. *)
Definition try_except_RuntimeError {W A : Type}
  (body : M W A) (handler : string -> M W A) : M W A :=
  fun w =>
    match body w with
    | (t, w1, inl (RuntimeError msg)) =>
        match handler msg w1 with
        | (t', w2, r) => ((t ++ t')%list, w2, r)
        end
    | other => other
    end.

(** [try: body except Exception: return fallback]. *)
Definition try_except_Exception {W A : Type} (body : M W A) (fallback : A) : M W A :=
  fun w =>
    match body w with
    | (t, w1, inl _) => (t, w1, inr fallback)
    | other => other
    end.

(** [for x in xs: body(x)]. *)
Fixpoint for_each {W A : Type} (xs : list A) (body : A -> M W unit) : M W unit :=
  match xs with
  | [] => ret tt
  | x :: rest => bind (body x) (fun _ => for_each rest body)
  end.

Declare Scope monad_scope.
Delimit Scope monad_scope with monad.
Notation "x <- m ;; k" := (bind m (fun x => k))
  (at level 61, m at next level, right associativity) : monad_scope.
Notation "m ;;; k" := (bind m (fun _ => k))
  (at level 61, right associativity) : monad_scope.

(** * The program *)

Section Program.

Context {builtins : Builtins} {cfg : Config} {W : Type} {world : World W}.

Local Open Scope monad_scope.

(** [subprocess.run(...)], recorded. *)
Definition run_capture (cmd : list string) : M W string :=
  fun w => let (r, w1) := sys_run cmd w in ([Run cmd], w1, r).

(** ** Probing a file *)

(** [obj[key]] for a string key. *)
Definition subscript_key (obj : json) (key : string) : result json :=
  match obj with
  | JObj fields =>
      match find (fun kv => String.eqb (fst kv) key) fields with
      | Some kv => inr (snd kv)
      | None => inl KeyError
      end
  | _ => inl TypeError
  end.

(** [obj[0]]. *)
Definition subscript_0 (obj : json) : result json :=
  match obj with
  | JArr [] => inl IndexError
  | JArr (x :: _) => inr x
  | JStr EmptyString => inl IndexError
  | JStr (String c _) => inr (JStr (String c EmptyString))
  | JObj _ => inl KeyError
  | _ => inl TypeError
  end.

(** [float(v)] for a JSON value. *)
Definition float_of_json (v : json) : result Q :=
  match v with
  | JBool b => inr (if b then 1 else 0)%Q
  | JInt n => inr (inject_Z n)
  | JFloat q => inr q
  | JStr s => match py_float s with Some q => inr q | None => inl ValueError end
  | _ => inl TypeError
  end.

(** [int(v)] for a JSON value. *)
Definition int_of_json (v : json) : result Z :=
  match v with
  | JBool b => inr (if b then 1 else 0)
  | JInt n => inr n
  | JFloat q => int_of_float (Fin q)
  | JStr s => match py_int s with Some n => inr n | None => inl ValueError end
  | _ => inl TypeError
  end.

(** [s.get("r_frame_rate", "0/1")]. *)
Definition get_r_frame_rate (s : json) : result json :=
  match s with
  | JObj fields =>
      match find (fun kv => String.eqb (fst kv) "r_frame_rate") fields with
      | Some kv => inr (snd kv)
      | None => inr (JStr "0/1")
      end
  | _ => inl AttributeError
  end.

(** [text.split("/")]. *)
Fixpoint split_slash (cur s : string) : list string :=
  match s with
  | EmptyString => [cur]
  | String c r =>
      if Ascii.eqb c "/"%char then cur :: split_slash EmptyString r
      else split_slash (cur ++ String c EmptyString) r
  end.

(** [num, den = rr.split("/")], then the frame rate. *)
Definition parse_fps (rr : json) : result Q :=
  match rr with
  | JStr text =>
      match split_slash EmptyString text with
      | [num; den] =>
          match py_float den with
          | None => inl ValueError
          | Some d =>
              if Qeq_bool d 0 then inr 0%Q
              else match py_float num with
                   | None => inl ValueError
                   | Some n => inr (n / d)%Q
                   end
          end
      | _ => inl ValueError
      end
  | _ => inl AttributeError
  end.

Definition ffprobe_cmd (p : path) : list string :=
  ["ffprobe"; "-v"; "error";
   "-select_streams"; "v:0";
   "-show_entries"; "format=duration";
   "-show_entries"; "stream=width,height,r_frame_rate";
   "-of"; "json";
   path_str p].

(** The body of [ffprobe_info] after the tool has answered. *)
Definition probe_fields (stdout : string) : result (Q * Z * Z * Q) :=
  match json_loads stdout with
  | None => inl JSONDecodeError
  | Some data =>
      (do fmt <- subscript_key data "format";
       do dur <- subscript_key fmt "duration";
       do duration <- float_of_json dur;
       do streams <- subscript_key data "streams";
       do s <- subscript_0 streams;
       do wj <- subscript_key s "width";
       do w <- int_of_json wj;
       do hj <- subscript_key s "height";
       do h <- int_of_json hj;
       do rr <- get_r_frame_rate s;
       do fps <- parse_fps rr;
       inr (duration, w, h, fps))%result
  end.

Definition ffprobe_info (p : path) : M W (Q * Z * Z * Q) :=
  out <- run_capture (ffprobe_cmd p) ;;
  lift (probe_fields out).

(** ** Capability detection *)

Definition ffmpeg_exists : M W bool :=
  try_except_Exception
    (run_capture ["ffmpeg"; "-version"] ;;; ret true)
    false.

Definition ffmpeg_has_encoder (name : string) : M W bool :=
  try_except_Exception
    (out <- run_capture ["ffmpeg"; "-hide_banner"; "-encoders"] ;;
     ret (contains name out))
    false.

Definition intel_qsv_available : M W bool :=
  a <- ffmpeg_has_encoder "hevc_qsv" ;;
  if a then ret true else ffmpeg_has_encoder "h264_qsv".

(** ** Filters *)

Definition scaler_for_source (src_w src_h : Z) : string :=
  if src_h <=? 720 then
    "scale=3840:2160:flags=bicubic+accurate_rnd+full_chroma_int"
  else
    "scale=3840:2160:flags=lanczos+accurate_rnd+full_chroma_int".

(** ** Command builders *)

Definition x265_params : list string :=
  ["aq-mode=3"; "aq-strength=1.0"; "psy-rd=2.0"; "psy-rdoq=1.2"; "rd=4";
   "rdoq-level=2"; "deblock=-1,-1"; "sao=1"; "ref=4"; "bframes=6";
   "rc-lookahead=32"; "me=star"; "subme=4"; "strong-intra-smoothing=1"].

Definition build_cmd_cpu_master (input_path output_path : path) (src_w src_h : Z)
  : list string :=
  let vf := scaler_for_source src_w src_h in
  let pix_fmt := if CPU_10BIT then "yuv420p10le" else "yuv420p" in
  ["ffmpeg"; "-y"; "-hide_banner"; "-nostats";
   "-progress"; "pipe:1";
   "-i"; path_str input_path;
   "-vf"; vf;
   "-c:v"; "libx265";
   "-preset"; CPU_PRESET;
   "-crf"; str_of_int CPU_CRF;
   "-pix_fmt"; pix_fmt;
   "-x265-params"; join_colon x265_params;
   "-c:a"; "copy";
   path_str output_path].

Definition build_cmd_intel_qsv (input_path output_path : path) (src_w src_h : Z)
  : list string :=
  let vf := scaler_for_source src_w src_h in
  let encoder := "h264_qsv" in
  ["ffmpeg"; "-y"; "-hide_banner"; "-nostats";
   "-progress"; "pipe:1";
   "-i"; path_str input_path;
   "-vf"; vf ++ ",format=nv12";
   "-c:v"; encoder;
   "-global_quality"; str_of_int QSV_GLOBAL_QUALITY;
   "-look_ahead"; "1";
   "-b_strategy"; "1";
   "-c:a"; "copy";
   path_str output_path].

(** ** Encoding with ETA *)

(** The loop variables of [encode_with_eta]. *)
Record state : Type := {
  last_print : Q;
  speed_samples : list (Q * Q);
  out_time_us : Z;
  speed_inst : Q
}.

Definition initial_state : state :=
  {| last_print := 0; speed_samples := []; out_time_us := 0; speed_inst := 0 |}.

(** The values computed when a progress line is printed. *)
Record report : Type := {
  done_sec : Q;
  remaining_sec : Q;
  avg_speed : option Q;
  use_speed : Q;
  eta_sec : pyfloat;
  pct : Q;
  elapsed_wall : Q
}.

(** [a / b] on floats. *)
Definition truediv (a b : Q) : result Q :=
  if Qeq_bool b 0 then inl ZeroDivisionError else inr (a / b)%Q.

(** [0 < q]. *)
Definition Qpositive (q : Q) : bool :=
  match (q ?= 0)%Q with Gt => true | _ => false end.

(** The truth value of a float. *)
Definition truthy (q : Q) : bool := negb (Qeq_bool q 0).

(** [sum(s for _, s in samples)]. *)
Definition sum_speeds (samples : list (Q * Q)) : Q :=
  fold_left Qplus (map snd samples) 0%Q.

(** [while speed_samples and speed_samples[0][0] < cutoff: speed_samples.pop(0)] *)
Fixpoint evict (cutoff : Q) (samples : list (Q * Q)) : list (Q * Q) :=
  match samples with
  | [] => []
  | (t, v) :: rest =>
      match (t ?= cutoff)%Q with
      | Lt => evict cutoff rest
      | _ => samples
      end
  end.

(** The least magnitude of an [int] that has no float: converting it
    raises [OverflowError]. *)
Definition FLOAT_INT_LIMIT : Z := 2 ^ 1024 - 2 ^ 970.

(** [n / d] for an int [n] and a float [d] that is not zero: [n] is
    converted to a float first. *)
Definition int_truediv (n : Z) (d : Q) : result Q :=
  if Z.abs n <? FLOAT_INT_LIMIT then inr (inject_Z n / d)%Q else inl OverflowError.

(** The body of the branch that prints a progress line; [st] already holds
    the new [last_print]. *)
Definition compute_report (duration start_wall : Q) (st : state) (now : Q)
  : result (report * message) :=
  (do elapsed <- int_truediv (out_time_us st) 1000000;
   let done_sec := Qmin elapsed duration in
   let remaining_sec := Qmax 0 (duration - done_sec) in
   do avg_speed <-
      match speed_samples st with
      | [] => inr None
      | _ :: _ =>
          do a <- truediv (sum_speeds (speed_samples st))
                          (inject_Z (Z.of_nat (length (speed_samples st))));
          inr (Some a)
      end;
   let use_speed :=
     match avg_speed with
     | Some a => if truthy a && Qpositive a then a else speed_inst st
     | None => speed_inst st
     end in
   do eta_sec <-
      (if truthy use_speed && Qpositive use_speed
       then do e <- truediv remaining_sec use_speed; inr (Fin e)
       else inr PInf);
   do pct <-
      (if Qpositive duration
       then do x <- truediv done_sec duration; inr (Qmin (x * 100) 100)
       else inr 0%Q);
   let elapsed_wall := (now - start_wall)%Q in
   do video <- fmt_hms (Some (Fin done_sec));
   do total <- fmt_hms (Some (Fin duration));
   do eta <- fmt_hms (Some eta_sec);
   do wall <- fmt_hms (Some (Fin elapsed_wall));
   inr ({| done_sec := done_sec; remaining_sec := remaining_sec;
           avg_speed := avg_speed; use_speed := use_speed;
           eta_sec := eta_sec; pct := pct; elapsed_wall := elapsed_wall |},
        MsgProgress pct video total use_speed eta wall))%result.

(** One turn of [for line in proc.stdout], for the line [raw] handled at
    clock reading [now]: the new loop variables, what was printed, and
    whether the loop was left by [break]. *)
Definition progress_step (duration start_wall : Q) (st : state) (now : Q) (raw : string)
  : result (state * option (report * message) * bool) :=
  let line := strip raw in
  if String.eqb line EmptyString || negb (contains "=" line) then inr (st, None, false)
  else
    let (key, value) := split_eq line in
    if String.eqb key "out_time_us" then
      match py_int value with
      | Some n =>
          inr ({| last_print := last_print st; speed_samples := speed_samples st;
                  out_time_us := n; speed_inst := speed_inst st |}, None, false)
      | None => inr (st, None, false)
      end
    else if String.eqb key "out_time_ms" then
      match py_int value with
      | Some n =>
          inr ({| last_print := last_print st; speed_samples := speed_samples st;
                  out_time_us := n * 1000; speed_inst := speed_inst st |}, None, false)
      | None => inr (st, None, false)
      end
    else if String.eqb key "speed" then
      let v := remove_x (lower (strip value)) in
      match py_float v with
      | Some speed =>
          let cutoff := (now - ETA_AVG_WINDOW_SECONDS)%Q in
          inr ({| last_print := last_print st;
                  speed_samples := evict cutoff (speed_samples st ++ [(now, speed)])%list;
                  out_time_us := out_time_us st; speed_inst := speed |}, None, false)
      | None => inr (st, None, false)
      end
    else if String.eqb key "progress" then
      if Qle_bool PRINT_EVERY_SECONDS (now - last_print st) || String.eqb value "end" then
        let st1 := {| last_print := now; speed_samples := speed_samples st;
                      out_time_us := out_time_us st; speed_inst := speed_inst st |} in
        (do r <- compute_report duration start_wall st1 now;
         inr (st1, Some r, String.eqb value "end"))%result
      else inr (st, None, String.eqb value "end")
    else inr (st, None, false).

(** [for line in proc.stdout: ...]: what was printed, and the loop variables
    at the end or the exception that left the loop. *)
Fixpoint progress_loop (duration start_wall : Q) (st : state) (lines : list (Q * string))
  : list (report * message) * result state :=
  match lines with
  | [] => ([], inr st)
  | (now, raw) :: rest =>
      match progress_step duration start_wall st now raw with
      | inl e => ([], inl e)
      | inr (st1, out, stop) =>
          let here := match out with Some x => [x] | None => [] end in
          if stop then (here, inr st1)
          else
            let (more, r) := progress_loop duration start_wall st1 rest in
            ((here ++ more)%list, r)
      end
  end.

Definition newline : string := String "010"%char EmptyString.

Definition popen (cmd : list string) : M W process :=
  fun w =>
    match sys_popen cmd w with
    | (Some proc, w1) => ([Popen cmd], w1, inr proc)
    | (None, w1) => ([Popen cmd], w1, inl OSError)
    end.

Definition print_all (ms : list message) : M W unit :=
  fun w => (map Print ms, w, inr tt).

(** The [finally] clause kills a process that is still running; it changes
    neither the result nor what is printed and is left out. *)
Definition encode_with_eta (output_path : path) (cmd : list string) (duration : Q)
  : M W unit :=
  hms <- lift (fmt_hms (Some (Fin duration))) ;;
  print (MsgDuration hms (path_name output_path)) ;;;
  proc <- popen cmd ;;
  let (printed, r) :=
    progress_loop duration (p_start proc) initial_state (p_stdout proc) in
  print_all (map snd printed) ;;;
  match r with
  | inl e => raise e
  | inr _ =>
      let rc := p_returncode proc in
      if negb (rc =? 0) then
        raise (RuntimeError
                 ("ffmpeg failed with exit code " ++ str_of_int rc ++ newline
                  ++ p_stderr proc))
      else print MsgDone
  end.

(** ** Main *)

Definition path_exists (p : path) : M W bool :=
  fun w => ([], w, inr (sys_exists (path_str p) w)).

Definition out_qsv_of (video : path) : path :=
  output_path (path_stem video ++ "_4k_qsv.mp4").

Definition out_cpu_of (video : path) : path :=
  output_path (path_stem video ++ "_4k_master.mp4").

(** The body of [except RuntimeError as e] in [main]. *)
Definition cpu_fallback (video : path) (w h : Z) (duration : Q) (err : string)
  : M W unit :=
  print MsgQsvFailed ;;;
  l <- lift (last_line err) ;;
  print (MsgLine l) ;;;
  let out := out_cpu_of video in
  ex <- path_exists out ;;
  if ex then print (MsgSkipCpuFallback (path_name out))
  else
    let cmd := build_cmd_cpu_master video out w h in
    encode_with_eta out cmd duration.

(** The body of [for video in videos] in [main]; returning is going on to
    the next file. *)
Definition process_video (mode : string) (video : path) : M W unit :=
  info <- ffprobe_info video ;;
  let '(duration, w, h, _fps) := info in
  if SKIP_IF_4K_OR_HIGHER && ((3840 <=? w) || (2160 <=? h)) then
    print (MsgSkip4K (path_name video) w h)
  else
    let out_qsv := out_qsv_of video in
    let out_cpu := out_cpu_of video in
    let out := if String.eqb mode "intel_qsv" then out_qsv else out_cpu in
    ex <- path_exists out ;;
    if ex then print (MsgSkipExists (path_name out))
    else
      print (MsgEncoding (path_name video) w h mode) ;;;
      if String.eqb mode "intel_qsv" then
        let cmd := build_cmd_intel_qsv video out w h in
        try_except_RuntimeError
          (encode_with_eta out cmd duration)
          (cpu_fallback video w h duration)
      else
        let cmd := build_cmd_cpu_master video out w h in
        encode_with_eta out cmd duration.

Definition is_video (entry : path * bool) : bool :=
  snd entry
  && existsb (String.eqb (lower (path_suffix (fst entry)))) VIDEO_EXTENSIONS.

Definition list_videos : M W (list path) :=
  fun w =>
    match sys_iterdir INPUT_DIR w with
    | inl e => ([], w, inl e)
    | inr entries => ([], w, inr (map fst (filter is_video entries)))
    end.

Definition mkdir_output : M W unit :=
  fun w =>
    match sys_mkdir OUTPUT_DIR w with
    | (Some e, w1) => ([], w1, inl e)
    | (None, w1) => ([], w1, inr tt)
    end.

(** Lines 304 to 350 of [main]: the mode is settled, then the files are
    handled one after the other. *)
Definition run_batch (videos : list path) : M W unit :=
  qsv_ok <- intel_qsv_available ;;
  (if String.eqb MODE "intel_qsv" && negb qsv_ok
   then print MsgQsvWarning else ret tt) ;;;
  let mode :=
    if negb (String.eqb MODE "intel_qsv") || qsv_ok then MODE else "cpu_master" in
  for_each videos (process_video mode) ;;;
  print MsgBatchComplete.

Definition main : M W unit :=
  ok <- ffmpeg_exists ;;
  if negb ok then
    raise (RuntimeError "ffmpeg not found. Install it: sudo apt install ffmpeg")
  else
    (fun w =>
       if negb (sys_exists INPUT_DIR w)
       then raise (FileNotFoundError ("Input folder does not exist: " ++ INPUT_DIR)) w
       else
         (mkdir_output ;;;
          videos <- list_videos ;;
          match videos with
          | [] => print MsgNoVideos
          | _ :: _ => run_batch videos
          end) w).

End Program.

(** * Vocabulary of the properties

    The notions the properties are stated with.  Those of the progress
    estimator (the elapsed output time, the latest speed sample, the
    trailing window, the mean, the effective speed, the report) are written
    after the wording of the specification, as functions of the status
    lines received so far; the properties compare the loop of
    [encode_with_eta] with them. *)

(** [needle] occurs in [hay]. *)
Definition occurs (needle hay : string) : Prop :=
  exists pre post, hay = pre ++ needle ++ post.

(** The text of a whole number of seconds. *)
Definition hms_of_seconds (s : Z) : string :=
  fmt_02d (s / 3600) ++ ":" ++ fmt_02d ((s mod 3600) / 60) ++ ":" ++ fmt_02d (s mod 60).

(** The two filter chains: the fast one and the high-quality one. *)
Definition FAST_FILTER : string :=
  "scale=3840:2160:flags=bicubic+accurate_rnd+full_chroma_int".

Definition QUALITY_FILTER : string :=
  "scale=3840:2160:flags=lanczos+accurate_rnd+full_chroma_int".

(** The filter chain and the video encoder of an ffmpeg command line, by
    the places the two builders put them at. *)
Definition filter_of (cmd : list string) : option string :=
  match nth_error cmd 8 with
  | Some "-vf" => nth_error cmd 9
  | _ => None
  end.

Definition codec_of (cmd : list string) : option string :=
  match nth_error cmd 10 with
  | Some "-c:v" => nth_error cmd 11
  | _ => None
  end.

(** The query for the encoder listing. *)
Definition encoders_cmd : list string := ["ffmpeg"; "-hide_banner"; "-encoders"].

(** Whether an answer of the encoder query lists [name]. *)
Definition lists_encoder (name : string) (answer : result string) : bool :=
  match answer with
  | inr out => contains name out
  | inl _ => false
  end.

(** The first value [f] gives along [l]. *)
Fixpoint first_some {A B : Type} (f : A -> option B) (l : list A) : option B :=
  match l with
  | [] => None
  | x :: rest => match f x with Some b => Some b | None => first_some f rest end
  end.

(** The value of the latest line (of a history, oldest line first) on which
    [f] is defined. *)
Definition most_recent {B : Type} (f : string -> option B) (h : list (Q * string))
  : option B :=
  first_some (fun x => f (snd x)) (rev h).

(** A sample is no older than [cutoff]. *)
Definition keep (cutoff : Q) (s : Q * Q) : bool := Qle_bool cutoff (fst s).

(** The arithmetic mean of the speeds of [samples]. *)
Definition mean (samples : list (Q * Q)) : option Q :=
  match samples with
  | [] => None
  | _ :: _ => Some (sum_speeds samples / inject_Z (Z.of_nat (length samples)))%Q
  end.

(** The speed the estimate uses: the average if there is one above zero,
    else the instantaneous speed. *)
Definition effective_speed (average : option Q) (instantaneous : Q) : Q :=
  match average with
  | Some a => if Qpositive a then a else instantaneous
  | None => instantaneous
  end.

(** Samples in the order of their arrival times. *)
Definition by_time (a b : Q * Q) : Prop := (fst a <= fst b)%Q.

(** The commands started, in order. *)
Definition attempts (t : list event) : list (list string) :=
  flat_map (fun ev => match ev with Popen cmd => [cmd] | _ => [] end) t.

(** The tools run to completion, in order. *)
Definition tools_run (t : list event) : list (list string) :=
  flat_map (fun ev => match ev with Run cmd => [cmd] | _ => [] end) t.

(** An event that starts no command other than an allowed one. *)
Definition starts_only (allowed : list string -> Prop) (ev : event) : Prop :=
  match ev with
  | Popen cmd => allowed cmd
  | _ => True
  end.

(** The query [ffmpeg_exists] runs. *)
Definition version_cmd : list string := ["ffmpeg"; "-version"].

(** The output a mode writes for a file. *)
Definition output_for (mode : string) (video : path) : path :=
  if String.eqb mode "intel_qsv" then out_qsv_of video else out_cpu_of video.

(** No character of [s] ends a line. *)
Fixpoint one_line (s : string) : Prop :=
  match s with
  | EmptyString => True
  | String c r => is_line_break c = false /\ one_line r
  end.

(** The number of occurrences of [c] in [s]. *)
Fixpoint count_char (c : ascii) (s : string) : nat :=
  match s with
  | EmptyString => O
  | String d r => if Ascii.eqb d c then S (count_char c r) else count_char c r
  end.

Section Vocabulary.

Context {builtins : Builtins} {cfg : Config} {W : Type} {world : World W}.

(** The key and the value of a status line, if it has the form [key=value]. *)
Definition field_of (raw : string) : option (string * string) :=
  let line := strip raw in
  if String.eqb line EmptyString || negb (contains "=" line) then None
  else Some (split_eq line).

(** The output time in microseconds a line reports, if it reports one. *)
Definition time_field (raw : string) : option Z :=
  match field_of raw with
  | Some (key, value) =>
      if String.eqb key "out_time_us" then py_int value
      else if String.eqb key "out_time_ms" then option_map (fun n => n * 1000) (py_int value)
      else None
  | None => None
  end.

(** The speed a line reports, if it reports one. *)
Definition speed_field (raw : string) : option Q :=
  match field_of raw with
  | Some (key, value) =>
      if String.eqb key "speed" then py_float (remove_x (lower (strip value)))
      else None
  | None => None
  end.

(** The elapsed output time in microseconds: the most recent time value
    received, 0 before the first. *)
Definition elapsed_output_us (h : list (Q * string)) : Z :=
  match most_recent time_field h with Some n => n | None => 0 end.

(** The elapsed output time, in seconds. *)
Definition elapsed_output_time (h : list (Q * string)) : Q :=
  (inject_Z (elapsed_output_us h) / 1000000)%Q.

(** The most recent instantaneous speed sample. *)
Definition latest_speed (h : list (Q * string)) : option Q :=
  most_recent speed_field h.

(** Every speed sample received, with its arrival time, oldest first. *)
Definition all_samples (h : list (Q * string)) : list (Q * Q) :=
  flat_map (fun x => match speed_field (snd x) with
                     | Some v => [(fst x, v)]
                     | None => []
                     end) h.

(** The samples within the trailing window that ends at the arrival of the
    latest sample. *)
Definition window (h : list (Q * string)) : list (Q * Q) :=
  match rev (all_samples h) with
  | [] => []
  | (t_last, _) :: _ =>
      filter (keep (t_last - ETA_AVG_WINDOW_SECONDS)) (all_samples h)
  end.

(** The report for loop variables [st] at clock reading [now]. *)
Definition report_of (duration start_wall : Q) (st : state) (now : Q) : report :=
  let done := Qmin (inject_Z (out_time_us st) / 1000000) duration in
  let remaining := Qmax 0 (duration - done) in
  let use := effective_speed (mean (speed_samples st)) (speed_inst st) in
  {| done_sec := done;
     remaining_sec := remaining;
     avg_speed := mean (speed_samples st);
     use_speed := use;
     eta_sec := if Qpositive use then Fin (remaining / use) else PInf;
     pct := if Qpositive duration then Qmin (done / duration * 100) 100 else 0%Q;
     elapsed_wall := (now - start_wall)%Q |}.

(** The reports [progress_loop] prints, each with the lines read up to it
    and the loop variables it was computed from. *)
Fixpoint emissions (duration start_wall : Q) (hist : list (Q * string)) (st : state)
  (lines : list (Q * string)) : list (list (Q * string) * state * report) :=
  match lines with
  | [] => []
  | (now, raw) :: rest =>
      match progress_step duration start_wall st now raw with
      | inl _ => []
      | inr (st1, out, stop) =>
          let h1 := (hist ++ [(now, raw)])%list in
          let here := match out with Some (r, _) => [(h1, st1, r)] | None => [] end in
          if stop then here
          else (here ++ emissions duration start_wall h1 st1 rest)%list
      end
  end.

(** The loop variables [st] agree with the lines [h] read so far. *)
Definition tracks (h : list (Q * string)) (st : state) : Prop :=
  out_time_us st = elapsed_output_us h /\
  speed_inst st = match latest_speed h with Some v => v | None => 0%Q end /\
  ((0 <= ETA_AVG_WINDOW_SECONDS)%Q ->
   StronglySorted Qle (map fst h) -> speed_samples st = window h).

(** The arrival time of the latest speed sample. *)
Definition latest_arrival (h : list (Q * string)) : option Q :=
  match rev (all_samples h) with
  | [] => None
  | (t, _) :: _ => Some t
  end.

(** Every event of every run of [m] satisfies [P]. *)
Definition traced {A : Type} (P : event -> Prop) (m : M W A) : Prop :=
  forall w : W, Forall P (fst (fst (m w))).

(** A command of [build_cmd_cpu_master], of [build_cmd_intel_qsv]. *)
Definition is_cpu_master_cmd (cmd : list string) : Prop :=
  exists (input output : path) (src_w src_h : Z),
    cmd = build_cmd_cpu_master input output src_w src_h.

Definition is_intel_qsv_cmd (cmd : list string) : Prop :=
  exists (input output : path) (src_w src_h : Z),
    cmd = build_cmd_intel_qsv input output src_w src_h.

(** The hardware command and the software-master command for a file. *)
Definition hardware_cmd (video : path) (src_w src_h : Z) : list string :=
  build_cmd_intel_qsv video (out_qsv_of video) src_w src_h.

Definition software_cmd (video : path) (src_w src_h : Z) : list string :=
  build_cmd_cpu_master video (out_cpu_of video) src_w src_h.

(** The line is the end marker [progress=end]. *)
Definition is_end_line (raw : string) : Prop :=
  field_of raw = Some ("progress", "end").

(** The reports [es], the one before them printed at clock [prev], are at
    least the reporting interval apart; only a last report printed at the
    end marker may come sooner. *)
Fixpoint spaced (prev : Q) (es : list (list (Q * string) * state * report)) : Prop :=
  match es with
  | [] => True
  | (h, st, _) :: rest =>
      ((PRINT_EVERY_SECONDS <= last_print st - prev)%Q \/
       (rest = [] /\
        exists before now raw, h = (before ++ [(now, raw)])%list /\ is_end_line raw)) /\
      spaced (last_print st) rest
  end.

(** The buffer [st] holds is empty while no sample has been received and
    ends with the latest sample afterwards. *)
Definition holds_latest (h : list (Q * string)) (st : state) : Prop :=
  (all_samples h = [] -> speed_samples st = []) /\
  (forall older x, all_samples h = (older ++ [x])%list ->
                   exists front, speed_samples st = (front ++ [x])%list).

End Vocabulary.

Arguments traced W {A} P m.

(** * A concrete setting to run the program in *)

Module Demo.

Definition digit_of (c : ascii) : option Z :=
  let n := nat_of_ascii c in
  if ((48 <=? n) && (n <=? 57))%nat then Some (Z.of_nat (n - 48)) else None.

(** The value of a run of decimal digits that continues [acc]; [count] is
    the number of digits read. *)
Fixpoint digits (acc : Z) (count : nat) (s : string) : option (Z * nat * string) :=
  match s with
  | EmptyString => Some (acc, count, EmptyString)
  | String c r =>
      match digit_of c with
      | Some d => digits (10 * acc + d) (S count) r
      | None => Some (acc, count, s)
      end
  end.

(** [int(text)] on plain decimal numerals. *)
Definition dec_int (s : string) : option Z :=
  match digits 0 0 s with
  | Some (n, S _, EmptyString) => Some n
  | _ => None
  end.

(** [float(text)] on numerals [ddd] and [ddd.ddd]. *)
Definition dec_float (s : string) : option Q :=
  match digits 0 0 s with
  | Some (n, S _, EmptyString) => Some (inject_Z n)
  | Some (n, S _, String "." frac) =>
      match digits 0 0 frac with
      | Some (f, k, EmptyString) =>
          Some (inject_Z n + inject_Z f / inject_Z (10 ^ Z.of_nat k))%Q
      | _ => None
      end
  | _ => None
  end.

(** The document ffprobe prints for a 1920x1080 file of 120 seconds. *)
Definition doc_1080p : json :=
  JObj [("format", JObj [("duration", JStr "120.0")]);
        ("streams", JArr [JObj [("width", JInt 1920); ("height", JInt 1080);
                                ("r_frame_rate", JStr "30/1")]])].

Definition loads (s : string) : option json :=
  if String.eqb s "1080p" then Some doc_1080p else None.

#[export] Instance builtins : Builtins :=
  {| py_int := dec_int; py_float := dec_float; json_loads := loads |}.

(** A world that answers from scripts: the answers of the tools that are
    run, the processes that are started, the files that exist and the
    entries of the input folder. *)
Record script : Type := {
  runs : list (result string);
  procs : list (option process);
  files : list string;
  entries : list (path * bool)
}.

#[export] Instance world : World script := {|
  sys_run := fun _ w =>
    match runs w with
    | [] => (inl (FileNotFoundError "ffmpeg"), w)
    | r :: rest =>
        (r, {| runs := rest; procs := procs w; files := files w; entries := entries w |})
    end;
  sys_popen := fun _ w =>
    match procs w with
    | [] => (None, w)
    | p :: rest =>
        (p, {| runs := runs w; procs := rest; files := files w; entries := entries w |})
    end;
  sys_exists := fun p w => existsb (String.eqb p) (files w);
  sys_mkdir := fun _ w => (None, w);
  sys_iterdir := fun _ w => inr (entries w)
|}.

Definition video (name stem suffix : string) : path :=
  {| path_dir := INPUT_DIR; path_name := name; path_stem := stem; path_suffix := suffix |}.

(** The status lines of the scenario: a speed, an output time, the end. *)
Definition scenario_lines : list (Q * string) :=
  [(1000, "speed=2.0x"); (1001, "out_time_us=60000000"); (1002, "progress=end")]%Q.

(** A speed sample, then the end marker a hundred seconds later. *)
Definition stale_lines : list (Q * string) :=
  [(0, "speed=2.0x"); (100, "progress=end")]%Q.




Definition failing : process :=
  {| p_start := 0; p_stdout := []; p_returncode := 1; p_stderr := "boom" |}.

Definition succeeding : process :=
  {| p_start := 999; p_stdout := scenario_lines; p_returncode := 0;
     p_stderr := EmptyString |}.

Definition encoders_with_qsv : string := " V..... h264_qsv  V..... hevc_qsv".

Definition video_a : path := video "a.mp4" "a" ".mp4".
Definition video_b : path := video "b.mkv" "b" ".mkv".

Definition two_videos : list (path * bool) := [(video_a, true); (video_b, true)].

(** ffmpeg is there and lists the hardware encoders, the input folder holds
    two videos, and probing the first one fails. *)
Definition probe_fails : script :=
  {| runs := [inr "ffmpeg version"; inr encoders_with_qsv;
              inl CalledProcessError; inr "1080p"];
     procs := [Some succeeding; Some succeeding];
     files := [INPUT_DIR];
     entries := two_videos |}.

(** The same, but both files probe well and the first two encodes fail. *)
Definition encodes_fail : script :=
  {| runs := [inr "ffmpeg version"; inr encoders_with_qsv; inr "1080p"; inr "1080p"];
     procs := [Some failing; Some failing; Some succeeding];
     files := [INPUT_DIR];
     entries := two_videos |}.

(** The world when the loop reaches a file whose two encodes will fail. *)
Definition at_file_encodes_fail : script :=
  {| runs := [inr "1080p"];
     procs := [Some failing; Some failing];
     files := [];
     entries := two_videos |}.

(** The world when the loop reaches a file that cannot be probed. *)
Definition at_file_probe_fails : script :=
  {| runs := [inl CalledProcessError; inr "1080p"];
     procs := [Some succeeding];
     files := [];
     entries := two_videos |}.


(** Status lines with a report in the middle and one at the end. *)
Definition two_report_lines : list (Q * string) :=
  [(1000, "out_time_us=1000000"); (1001, "progress=continue");
   (1005, "out_time_us=60000000"); (1006, "progress=end")]%Q.

(** Status lines of an encode whose output time has passed 120 seconds. *)
Definition finished_lines : list (Q * string) :=
  [(1000, "speed=2.0x"); (1001, "out_time_us=130000000"); (1002, "progress=end")]%Q.

(** The configuration with software-master as the configured mode. *)
Definition cpu_config : Config := {|
  MODE := "cpu_master";
  CPU_CRF := 16;
  CPU_PRESET := "slow";
  CPU_10BIT := true;
  QSV_GLOBAL_QUALITY := 20;
  SKIP_IF_4K_OR_HIGHER := true;
  PRINT_EVERY_SECONDS := 2;
  ETA_AVG_WINDOW_SECONDS := 60
|}.

(** The document ffprobe prints for a 3840x2160 file of 120 seconds. *)
Definition doc_2160p : json :=
  JObj [("format", JObj [("duration", JStr "120.0")]);
        ("streams", JArr [JObj [("width", JInt 3840); ("height", JInt 2160);
                                ("r_frame_rate", JStr "30/1")]])].

Definition loads_2160p (s : string) : option json :=
  if String.eqb s "2160p" then Some doc_2160p else loads s.

(** The builtins that also read the 2160p document. *)
Definition builtins_2160p : Builtins :=
  {| py_int := dec_int; py_float := dec_float; json_loads := loads_2160p |}.

(** The world when the loop reaches a file that is 4K already. *)
Definition at_file_4k : script :=
  {| runs := [inr "2160p"]; procs := [Some succeeding];
     files := []; entries := two_videos |}.

(** Worlds without ffmpeg, without the input folder, and with an input
    folder that holds no video. *)
Definition no_ffmpeg : script :=
  {| runs := [inl (FileNotFoundError "ffmpeg")]; procs := [];
     files := [INPUT_DIR]; entries := two_videos |}.

Definition no_input_folder : script :=
  {| runs := [inr "ffmpeg version"]; procs := [];
     files := []; entries := two_videos |}.

Definition no_videos : script :=
  {| runs := [inr "ffmpeg version"]; procs := [];
     files := [INPUT_DIR];
     entries := [(video "notes.txt" "notes" ".txt", true);
                 (video "clips.mp4" "clips" ".mp4", false)] |}.

(** The world when the loop reaches a file whose output exists already. *)
Definition at_file_output_exists : script :=
  {| runs := [inr "1080p"]; procs := [Some succeeding];
     files := [path_str (out_qsv_of video_a)];
     entries := two_videos |}.

(** The world when the loop reaches a file that encodes well, and one
    where ffmpeg cannot be started. *)
Definition at_file_encodes : script :=
  {| runs := [inr "1080p"]; procs := [Some succeeding];
     files := []; entries := two_videos |}.

Definition at_file_no_process : script :=
  {| runs := [inr "1080p"]; procs := [None; Some succeeding];
     files := []; entries := two_videos |}.

(** The world when the batch starts and ffmpeg lists the hardware encoders. *)
Definition with_hardware : script :=
  {| runs := [inr encoders_with_qsv; inr "1080p"; inr "1080p"];
     procs := [Some succeeding; Some succeeding];
     files := [INPUT_DIR];
     entries := two_videos |}.

End Demo.

(** * Properties *)

(** ** Text *)

Lemma prefix_spec (p s : string) :
  String.prefix p s = true <-> exists post, s = p ++ post.
Proof.
  revert s. induction p as [|a p IH]; intros s; simpl.
  - split; [intros _; exists s; reflexivity | intros _; destruct s; reflexivity].
  - destruct s as [|b s]; simpl.
    + split; [discriminate | intros [post H]; discriminate].
    + destruct (ascii_dec a b) as [->|Hab].
      * rewrite IH. split; intros [post H]; exists post; congruence.
      * split; [discriminate | intros [post H]; congruence].
Qed.

Lemma contains_spec (needle hay : string) :
  contains needle hay = true <-> occurs needle hay.
Proof.
  unfold occurs. induction hay as [|c hay IH].
  - cbn [contains]. rewrite orb_false_r, prefix_spec. split.
    + intros [post H]. exists EmptyString, post. exact H.
    + intros [pre [post H]]. destruct pre; simpl in H.
      * exists post. exact H.
      * discriminate.
  - cbn [contains]. rewrite orb_true_iff, prefix_spec, IH. split.
    + intros [[post H] | [pre [post H]]].
      * exists EmptyString, post. exact H.
      * exists (String c pre), post. simpl. congruence.
    + intros [pre [post H]]. destruct pre as [|d pre]; simpl in H.
      * left. exists post. exact H.
      * right. exists pre, post. congruence.
Qed.

Lemma splitlines_from_nonempty (cur s : string) :
  cur <> EmptyString \/ s <> EmptyString -> splitlines_from cur s <> [].
Proof.
  revert cur. induction s as [|c r IH]; intros cur H; simpl.
  - destruct H as [H | H]; [|congruence].
    destruct (String.eqb_spec cur EmptyString); congruence.
  - destruct (is_line_break c).
    + destruct r as [|c2 r2]; [discriminate|].
      destruct (Ascii.eqb c "013" && Ascii.eqb c2 "010"); discriminate.
    + apply IH. left. destruct cur; discriminate.
Qed.

Lemma last_line_defined (s : string) :
  s <> EmptyString -> exists l, last_line s = inr l.
Proof.
  intros H. unfold last_line, splitlines.
  pose proof (splitlines_from_nonempty EmptyString s (or_intror H)) as Hne.
  destruct (splitlines_from EmptyString s) as [|x xs] eqn:E; [congruence|].
  destruct (rev (x :: xs)) as [|l ls] eqn:R.
  - apply (f_equal (@length string)) in R. rewrite length_rev in R. discriminate.
  - exists l. reflexivity.
Qed.

(** ** The duration formatter *)

Lemma fmt_hms_none : fmt_hms None = inr placeholder.
Proof. reflexivity. Qed.

Lemma fmt_hms_negative (q : Q) : (q < 0)%Q -> fmt_hms (Some (Fin q)) = inr placeholder.
Proof.
  intros H. unfold fmt_hms, pyfloat_ltb0.
  apply Qlt_alt in H. unfold Qcompare in *. rewrite H. reflexivity.
Qed.

Lemma fmt_hms_infinite :
  fmt_hms (Some PInf) = inr placeholder /\ fmt_hms (Some NInf) = inr placeholder.
Proof. split; reflexivity. Qed.

Lemma fmt_hms_finite (q : Q) :
  (0 <= q)%Q -> fmt_hms (Some (Fin q)) = inr (hms_of_seconds (Qfloor (q + (1 # 2)))).
Proof.
  intros H. unfold fmt_hms, pyfloat_ltb0, pyfloat_is_inf.
  destruct (q ?= 0)%Q eqn:E.
  - simpl. destruct (q + (1 # 2) ?= 0)%Q eqn:E2; try reflexivity.
    apply Qlt_alt in E2. exfalso.
    assert (0 < 1 # 2)%Q by reflexivity. lra.
  - apply Qlt_alt in E. lra.
  - simpl. destruct (q + (1 # 2) ?= 0)%Q eqn:E2; try reflexivity.
    apply Qlt_alt in E2. exfalso.
    assert (0 < 1 # 2)%Q by reflexivity. lra.
Qed.


Lemma fmt_hms_fin_defined (q : Q) : exists s, fmt_hms (Some (Fin q)) = inr s.
Proof.
  destruct (Qlt_le_dec q 0) as [H | H].
  - exists placeholder. apply fmt_hms_negative, H.
  - eexists. apply fmt_hms_finite, H.
Qed.

(** Every input but NaN is formatted. *)
Lemma fmt_hms_defined (x : option pyfloat) :
  x <> Some NaN -> exists s, fmt_hms x = inr s.
Proof.
  intros H. destruct x as [[q | | |]|].
  - apply fmt_hms_fin_defined.
  - exists placeholder. reflexivity.
  - exists placeholder. reflexivity.
  - congruence.
  - exists placeholder. reflexivity.
Qed.

(** C10 (the formatter is total and never raises): the guard of [fmt_hms]
    sends [None], negative and infinite inputs to the placeholder but lets
    NaN through, and [int(seconds + 0.5)] then raises [ValueError]. *)
Theorem fmt_hms_nan_raises : fmt_hms (Some NaN) = inl ValueError.
Proof. reflexivity. Qed.

(** ** Filter selection and the command builders *)

(** C6: the filter depends on the source height alone: bicubic up to 720
    lines, lanczos above; both builders put that choice in their filter
    chain, so one height gives one choice in both modes. *)
Theorem scaler_for_source_by_height :
  forall (cfg : Config) (src_w src_h : Z),
    (src_h <= 720 -> scaler_for_source src_w src_h = FAST_FILTER) /\
    (720 < src_h -> scaler_for_source src_w src_h = QUALITY_FILTER) /\
    (forall other_w : Z, scaler_for_source other_w src_h = scaler_for_source src_w src_h) /\
    (forall input output : path,
        filter_of (build_cmd_cpu_master input output src_w src_h)
        = Some (scaler_for_source src_w src_h) /\
        filter_of (build_cmd_intel_qsv input output src_w src_h)
        = Some (scaler_for_source src_w src_h ++ ",format=nv12")) /\
    contains "bicubic" FAST_FILTER = true /\
    contains "lanczos" QUALITY_FILTER = true.
Proof.
  intros cfg src_w src_h. unfold scaler_for_source. repeat split.
  - intros H. apply Z.leb_le in H. rewrite H. reflexivity.
  - intros H. apply Z.leb_gt in H. rewrite H. reflexivity.
Qed.

Lemma scaler_for_source_by_height_witness :
  scaler_for_source 1280 720 = FAST_FILTER /\
  scaler_for_source 1920 1080 = QUALITY_FILTER.
Proof.
  split.
  - apply (proj1 (scaler_for_source_by_height source_config 1280 720)). lia.
  - apply (proj1 (proj2 (scaler_for_source_by_height source_config 1920 1080))). lia.
Defined.

(** ** Capability detection *)

Section Capability.

Context {W : Type} {world : World W}.

Lemma ffmpeg_has_encoder_run (name : string) (w : W) :
  ffmpeg_has_encoder name w
  = ([Run encoders_cmd], snd (sys_run encoders_cmd w),
     inr (lists_encoder name (fst (sys_run encoders_cmd w)))).
Proof.
  unfold ffmpeg_has_encoder, try_except_Exception, bind, run_capture, ret, encoders_cmd.
  destruct (sys_run _ w) as [[e | out] w1]; reflexivity.
Qed.

(** C7: a query for one encoder runs the listing once and answers whether
    the name occurs in it, false when the query raises.  The detector
    always returns a boolean, never an exception.  It is true exactly when
    the listing names [hevc_qsv] or, asked again, names [h264_qsv]; with
    one listing [out] answered both times that is: one of the two names
    occurs in [out].  A query that fails counts as a listing without the
    name, so two failures give false. *)
Theorem intel_qsv_available_spec :
  forall (w : W),
    let first := sys_run encoders_cmd w in
    let second := sys_run encoders_cmd (snd first) in
    (forall name : string,
        ffmpeg_has_encoder name w
        = ([Run encoders_cmd], snd first, inr (lists_encoder name (fst first)))) /\
    exists (t : list event) (w' : W) (b : bool),
      intel_qsv_available w = (t, w', inr b) /\
      b = lists_encoder "hevc_qsv" (fst first) || lists_encoder "h264_qsv" (fst second) /\
      (forall out : string,
          fst first = inr out -> fst second = inr out ->
          (b = true <-> occurs "hevc_qsv" out \/ occurs "h264_qsv" out)) /\
      (forall e1 e2 : exn, fst first = inl e1 -> fst second = inl e2 -> b = false).
Proof.
  intros w first second.
  split; [intros name; apply ffmpeg_has_encoder_run|].
  unfold intel_qsv_available, bind.
  rewrite (ffmpeg_has_encoder_run "hevc_qsv" w). fold first.
  destruct (lists_encoder "hevc_qsv" (fst first)) eqn:E1.
  - exists ([Run encoders_cmd] ++ [])%list, (snd first), true.
    unfold ret. repeat split.
    + intros _. left. destruct (fst first) as [e | o]; [discriminate|].
      injection H as <-. apply contains_spec, E1.
    + intros e1 e2 H1 _. rewrite H1 in E1. discriminate.
  - rewrite (ffmpeg_has_encoder_run "h264_qsv" (snd first)). fold second.
    exists ([Run encoders_cmd] ++ [Run encoders_cmd])%list, (snd second),
      (lists_encoder "h264_qsv" (fst second)).
    repeat split.
    + intros Hb. right. rewrite H0 in Hb. apply contains_spec, Hb.
    + intros [Hh | Hh].
      * rewrite H in E1. simpl in E1. apply contains_spec in Hh. congruence.
      * rewrite H0. apply contains_spec, Hh.
    + intros e1 e2 _ H2. rewrite H2. reflexivity.
Qed.

End Capability.

(** ** The progress estimator *)

Section Estimator.

Context {builtins : Builtins} {cfg : Config}.

(** *** Facts about comparisons *)

Lemma Qpositive_spec (q : Q) : Qpositive q = true <-> (0 < q)%Q.
Proof.
  unfold Qpositive. split.
  - intros H. destruct (q ?= 0)%Q eqn:E; try discriminate.
    apply Qgt_alt in E. exact E.
  - intros H. apply Qgt_alt in H. unfold Qcompare in *. rewrite H. reflexivity.
Qed.

Lemma Qpositive_nonzero (q : Q) : Qpositive q = true -> Qeq_bool q 0 = false.
Proof.
  intros H. apply Qpositive_spec in H.
  destruct (Qeq_bool q 0) eqn:E; [|reflexivity].
  apply Qeq_bool_iff in E. lra.
Qed.

Lemma truthy_positive (q : Q) : truthy q && Qpositive q = Qpositive q.
Proof.
  unfold truthy. destruct (Qpositive q) eqn:E.
  - rewrite (Qpositive_nonzero q E). reflexivity.
  - apply andb_false_r.
Qed.

Lemma length_nonzero {A : Type} (x : A) (l : list A) :
  Qeq_bool (inject_Z (Z.of_nat (length (x :: l)))) 0 = false.
Proof.
  destruct (Qeq_bool _ 0) eqn:E; [|reflexivity].
  apply Qeq_bool_iff in E. unfold Qeq in E. simpl in E. lia.
Qed.

(** [sum_speeds] adds the speeds up. *)
Lemma sum_speeds_cons (t v : Q) (samples : list (Q * Q)) :
  (sum_speeds ((t, v) :: samples) == v + sum_speeds samples)%Q.
Proof.
  unfold sum_speeds. cbn [map snd fold_left].
  assert (H : forall (l : list Q) (a b : Q),
             (fold_left Qplus l (a + b) == b + fold_left Qplus l a)%Q).
  { induction l as [|x l IH]; intros a b; cbn [fold_left].
    - ring.
    - assert (E : (a + b + x == (a + x) + b)%Q) by ring.
      assert (F : forall p q : Q, (p == q)%Q ->
                    (fold_left Qplus l p == fold_left Qplus l q)%Q).
      { clear. induction l as [|y l IH]; intros p q Hpq; cbn [fold_left];
          [exact Hpq | apply IH; rewrite Hpq; reflexivity]. }
      rewrite (F _ _ E). apply IH. }
  apply H.
Qed.

(** *** The report that is computed is [report_of] *)

Lemma report_tail (duration start_wall now done remaining use : Q) (avg : option Q) :
  exists m : message,
    (do eta_sec <-
        (if truthy use && Qpositive use
         then do e <- truediv remaining use; inr (Fin e)
         else inr PInf);
     do pct <-
        (if Qpositive duration
         then do x <- truediv done duration; inr (Qmin (x * 100) 100)
         else inr 0%Q);
     do video <- fmt_hms (Some (Fin done));
     do total <- fmt_hms (Some (Fin duration));
     do eta <- fmt_hms (Some eta_sec);
     do wall <- fmt_hms (Some (Fin (now - start_wall)));
     inr ({| done_sec := done; remaining_sec := remaining;
             avg_speed := avg; use_speed := use;
             eta_sec := eta_sec; pct := pct;
             elapsed_wall := now - start_wall |},
          MsgProgress pct video total use eta wall))%result
    = inr ({| done_sec := done; remaining_sec := remaining;
              avg_speed := avg; use_speed := use;
              eta_sec := if Qpositive use then Fin (remaining / use) else PInf;
              pct := if Qpositive duration then Qmin (done / duration * 100) 100 else 0%Q;
              elapsed_wall := now - start_wall |}, m).
Proof.
  rewrite truthy_positive.
  destruct (fmt_hms_fin_defined done) as [s1 H1].
  destruct (fmt_hms_fin_defined duration) as [s2 H2].
  destruct (fmt_hms_fin_defined (now - start_wall)) as [s4 H4].
  destruct (fmt_hms_fin_defined (remaining / use)) as [s3 H3].
  assert (H5 : fmt_hms (Some PInf) = inr placeholder) by reflexivity.
  destruct (Qpositive use) eqn:Euse; destruct (Qpositive duration) eqn:Edur;
    unfold truediv;
    rewrite ?(Qpositive_nonzero use Euse), ?(Qpositive_nonzero duration Edur);
    cbn [rbind]; rewrite H1; cbn [rbind]; rewrite H2; cbn [rbind];
    rewrite ?H3, ?H5; cbn [rbind]; rewrite H4; cbn [rbind];
    eexists; reflexivity.
Qed.

(** A report is computed unless the output time is too large for a float. *)
Lemma compute_report_spec (duration start_wall : Q) (st : state) (now : Q) :
  (Z.abs (out_time_us st) < FLOAT_INT_LIMIT ->
   exists m : message,
     compute_report duration start_wall st now
     = inr (report_of duration start_wall st now, m)) /\
  (FLOAT_INT_LIMIT <= Z.abs (out_time_us st) ->
   compute_report duration start_wall st now = inl OverflowError).
Proof.
  unfold compute_report, report_of, int_truediv. split; intros Hrange.
  2:{ apply Z.ltb_ge in Hrange. rewrite Hrange. reflexivity. }
  apply Z.ltb_lt in Hrange. rewrite Hrange. cbn [rbind].
  destruct (speed_samples st) as [|x l] eqn:E.
  - cbn [rbind mean effective_speed]. apply report_tail.
  - unfold truediv at 1. rewrite length_nonzero.
    cbn [rbind mean effective_speed].
    set (a := (sum_speeds (x :: l) / inject_Z (Z.of_nat (length (x :: l))))%Q).
    rewrite (truthy_positive a).
    apply (report_tail duration start_wall now _ _
             (if Qpositive a then a else speed_inst st) (Some a)).
Qed.

Lemma compute_report_cases (duration start_wall : Q) (st : state) (now : Q) :
  (exists m : message,
      compute_report duration start_wall st now
      = inr (report_of duration start_wall st now, m)) \/
  compute_report duration start_wall st now = inl OverflowError.
Proof.
  destruct (compute_report_spec duration start_wall st now) as [Hin Hout].
  destruct (Z.lt_ge_cases (Z.abs (out_time_us st)) FLOAT_INT_LIMIT) as [H | H];
    [left; apply Hin, H | right; apply Hout, H].
Qed.

(** *** One line *)

(** A line either raises [OverflowError], while a report is computed, or
    gives new loop variables. *)
Lemma progress_step_spec (duration start_wall : Q) (st : state) (now : Q) (raw : string) :
  (exists (st1 : state) (out : option (report * message)) (stop : bool),
      progress_step duration start_wall st now raw = inr (st1, out, stop) /\
      out_time_us st1
      = match time_field raw with Some n => n | None => out_time_us st end /\
      speed_inst st1
      = match speed_field raw with Some v => v | None => speed_inst st end /\
      speed_samples st1
      = match speed_field raw with
        | Some v => evict (now - ETA_AVG_WINDOW_SECONDS) (speed_samples st ++ [(now, v)])
        | None => speed_samples st
        end /\
      (forall r m, out = Some (r, m) -> r = report_of duration start_wall st1 now)) \/
  progress_step duration start_wall st now raw = inl OverflowError.
Proof.
  unfold progress_step, time_field, speed_field, field_of.
  destruct (String.eqb (strip raw) EmptyString || negb (contains "=" (strip raw))).
  { left. exists st, None, false. repeat split; discriminate. }
  destruct (split_eq (strip raw)) as [key value].
  destruct (String.eqb_spec key "out_time_us") as [-> | H1].
  { cbn [String.eqb Ascii.eqb Bool.eqb]. left.
    destruct (py_int value) as [n|]; eexists _, None, false;
      repeat split; discriminate. }
  destruct (String.eqb_spec key "out_time_ms") as [-> | H2].
  { cbn [String.eqb Ascii.eqb Bool.eqb]. left.
    destruct (py_int value) as [n|]; eexists _, None, false;
      repeat split; discriminate. }
  destruct (String.eqb_spec key "speed") as [-> | H3].
  { left. destruct (py_float (remove_x (lower (strip value)))) as [v|];
      eexists _, None, false; repeat split; discriminate. }
  destruct (String.eqb_spec key "progress") as [-> | H4].
  2:{ left. exists st, None, false. repeat split; discriminate. }
  destruct (Qle_bool PRINT_EVERY_SECONDS (now - last_print st) || String.eqb value "end").
  2:{ left. exists st, None, (String.eqb value "end"). repeat split; discriminate. }
  match goal with
  | |- context [compute_report duration start_wall ?s now] =>
      destruct (compute_report_cases duration start_wall s now) as [[m Hm] | Hm];
        rewrite Hm
  end.
  - cbn [rbind]. left. eexists _, _, _. split; [reflexivity|].
    repeat split. intros r m' H. injection H as <- _. reflexivity.
  - right. reflexivity.
Qed.

(** What a line that does not raise gives. *)
Lemma progress_step_inr (duration start_wall : Q) (st : state) (now : Q) (raw : string)
  (st1 : state) (out : option (report * message)) (stop : bool) :
  progress_step duration start_wall st now raw = inr (st1, out, stop) ->
  out_time_us st1
  = match time_field raw with Some n => n | None => out_time_us st end /\
  speed_inst st1
  = match speed_field raw with Some v => v | None => speed_inst st end /\
  speed_samples st1
  = match speed_field raw with
    | Some v => evict (now - ETA_AVG_WINDOW_SECONDS) (speed_samples st ++ [(now, v)])
    | None => speed_samples st
    end /\
  (forall r m, out = Some (r, m) -> r = report_of duration start_wall st1 now).
Proof.
  intros H.
  destruct (progress_step_spec duration start_wall st now raw)
    as [[st1' [out' [stop' [E Hs]]]] | E]; rewrite E in H; [|discriminate].
  injection H as <- <- <-. exact Hs.
Qed.

(** *** Histories *)

Lemma most_recent_snoc {B : Type} (f : string -> option B)
  (h : list (Q * string)) (x : Q * string) :
  most_recent f (h ++ [x])
  = match f (snd x) with Some b => Some b | None => most_recent f h end.
Proof. unfold most_recent. rewrite rev_unit. reflexivity. Qed.

Lemma all_samples_snoc (h : list (Q * string)) (x : Q * string) :
  all_samples (h ++ [x])
  = (all_samples h
     ++ match speed_field (snd x) with Some v => [(fst x, v)] | None => [] end)%list.
Proof. unfold all_samples. rewrite flat_map_app. simpl. rewrite app_nil_r. reflexivity. Qed.

(** The samples of a history carry timestamps of that history. *)
Lemma all_samples_times (h : list (Q * string)) (s : Q * Q) :
  In s (all_samples h) -> In (fst s) (map fst h).
Proof.
  unfold all_samples. intros H. apply in_flat_map in H. destruct H as [x [Hx Hs]].
  destruct (speed_field (snd x)); [|contradiction].
  destruct Hs as [<- | []]. simpl. apply in_map, Hx.
Qed.

(** *** Sorted samples: eviction from the front is filtering *)

Lemma keep_spec (c : Q) (s : Q * Q) : keep c s = true <-> (c <= fst s)%Q.
Proof. unfold keep. apply Qle_bool_iff. Qed.

Lemma keep_false (c : Q) (s : Q * Q) : keep c s = false <-> (fst s < c)%Q.
Proof.
  split; intros H.
  - apply Qnot_le_lt. intros Hle. apply keep_spec in Hle. congruence.
  - destruct (keep c s) eqn:E; [|reflexivity]. apply keep_spec in E. lra.
Qed.

Lemma evict_sorted (c : Q) (l : list (Q * Q)) :
  StronglySorted by_time l -> evict c l = filter (keep c) l.
Proof.
  induction 1 as [|[t v] rest Hs IH Hall]; [reflexivity|].
  cbn [evict filter].
  destruct (t ?= c)%Q eqn:E.
  - apply Qeq_alt in E.
    assert (Hk : keep c (t, v) = true) by (apply keep_spec; simpl; lra).
    rewrite Hk. f_equal. symmetry. apply forallb_filter_id.
    apply forallb_forall. intros s Hin. apply keep_spec.
    rewrite Forall_forall in Hall. specialize (Hall s Hin). unfold by_time in Hall.
    simpl in Hall. lra.
  - apply Qlt_alt in E.
    assert (Hk : keep c (t, v) = false) by (apply keep_false; exact E).
    rewrite Hk. exact IH.
  - apply Qgt_alt in E.
    assert (Hk : keep c (t, v) = true) by (apply keep_spec; simpl; lra).
    rewrite Hk. f_equal. symmetry. apply forallb_filter_id.
    apply forallb_forall. intros s Hin. apply keep_spec.
    rewrite Forall_forall in Hall. specialize (Hall s Hin). unfold by_time in Hall.
    simpl in Hall. lra.
Qed.

Lemma sorted_snoc_inv {A : Type} (R : A -> A -> Prop) (l : list A) (x : A) :
  StronglySorted R (l ++ [x]) -> StronglySorted R l /\ Forall (fun a => R a x) l.
Proof.
  induction l as [|a l IH]; simpl; intros H.
  - split; constructor.
  - inversion H as [|? ? Hs Hall]; subst.
    destruct (IH Hs) as [Hl Hx]. split.
    + constructor; [exact Hl|].
      rewrite Forall_forall in *. intros b Hb. apply Hall, in_or_app. left. exact Hb.
    + constructor; [|exact Hx].
      rewrite Forall_forall in Hall. apply Hall, in_or_app. right. left. reflexivity.
Qed.

Lemma sorted_snoc {A : Type} (R : A -> A -> Prop) (l : list A) (x : A) :
  StronglySorted R l -> Forall (fun a => R a x) l -> StronglySorted R (l ++ [x]).
Proof.
  induction 1 as [|a l Hs IH Hall]; simpl; intros Hx.
  - constructor; constructor.
  - inversion Hx; subst. constructor.
    + apply IH. assumption.
    + apply Forall_app. split; [exact Hall|]. constructor; [assumption|constructor].
Qed.

Lemma sorted_filter {A : Type} (R : A -> A -> Prop) (f : A -> bool) (l : list A) :
  StronglySorted R l -> StronglySorted R (filter f l).
Proof.
  induction 1 as [|a l Hs IH Hall]; simpl; [constructor|].
  destruct (f a); [|exact IH]. constructor; [exact IH|].
  rewrite Forall_forall in *. intros b Hb. apply filter_In in Hb. apply Hall, Hb.
Qed.

(** The samples of a history whose clock never runs backwards are sorted. *)
Lemma all_samples_sorted (h : list (Q * string)) :
  StronglySorted Qle (map fst h) -> StronglySorted by_time (all_samples h).
Proof.
  induction h as [|[t raw] h IH]; simpl; intros H; [constructor|].
  inversion H as [|? ? Hs Hall]; subst.
  change (flat_map _ h) with (all_samples h).
  destruct (speed_field raw) as [v|]; simpl; [|exact (IH Hs)].
  constructor; [exact (IH Hs)|].
  rewrite Forall_forall in *. intros s Hin. unfold by_time. simpl.
  apply Hall, all_samples_times, Hin.
Qed.

(** *** The window *)

Lemma window_incl (h : list (Q * string)) (s : Q * Q) :
  In s (window h) -> In s (all_samples h).
Proof.
  unfold window. destruct (rev (all_samples h)) as [|[t v] l]; [contradiction|].
  intros H. apply filter_In in H. apply H.
Qed.

Lemma window_sorted (h : list (Q * string)) :
  StronglySorted by_time (all_samples h) -> StronglySorted by_time (window h).
Proof.
  intros H. unfold window. destruct (rev (all_samples h)) as [|[t v] l]; [constructor|].
  apply sorted_filter, H.
Qed.

Lemma filter_filter_weaker {A : Type} (f g : A -> bool) (l : list A) :
  (forall x, In x l -> f x = true -> g x = true) ->
  filter f (filter g l) = filter f l.
Proof.
  induction l as [|a l IH]; simpl; intros H; [reflexivity|].
  destruct (g a) eqn:G; simpl.
  - destruct (f a); rewrite IH; auto.
  - destruct (f a) eqn:F.
    + rewrite (H a (or_introl eq_refl) F) in G. discriminate.
    + apply IH. auto.
Qed.

Lemma window_refilter (h : list (Q * string)) (now : Q) :
  (forall s, In s (all_samples h) -> (fst s <= now)%Q) ->
  filter (keep (now - ETA_AVG_WINDOW_SECONDS)) (window h)
  = filter (keep (now - ETA_AVG_WINDOW_SECONDS)) (all_samples h).
Proof.
  intros Hle. unfold window.
  destruct (rev (all_samples h)) as [|[t v] l] eqn:E.
  - apply (f_equal (@rev (Q * Q))) in E. rewrite rev_involutive in E. simpl in E.
    rewrite E. reflexivity.
  - apply filter_filter_weaker. intros s Hin Hk.
    assert (Ht : In (t, v) (all_samples h)).
    { apply in_rev. rewrite E. left. reflexivity. }
    apply Hle in Ht. simpl in Ht.
    apply keep_spec in Hk. apply keep_spec. lra.
Qed.

(** Appending a sample and evicting gives the window of the longer history. *)
Lemma window_snoc (h : list (Q * string)) (now : Q) (raw : string) (v : Q) :
  (0 <= ETA_AVG_WINDOW_SECONDS)%Q ->
  StronglySorted Qle (map fst (h ++ [(now, raw)])) ->
  speed_field raw = Some v ->
  evict (now - ETA_AVG_WINDOW_SECONDS) (window h ++ [(now, v)])
  = window (h ++ [(now, raw)]).
Proof.
  intros HW Hs Hv.
  pose proof (all_samples_sorted _ Hs) as Hsorted.
  rewrite all_samples_snoc in Hsorted. simpl in Hsorted. rewrite Hv in Hsorted.
  destruct (sorted_snoc_inv _ _ _ Hsorted) as [HS Hall].
  rewrite Forall_forall in Hall.
  assert (Hnew : keep (now - ETA_AVG_WINDOW_SECONDS) (now, v) = true).
  { apply keep_spec. simpl. lra. }
  rewrite evict_sorted.
  - rewrite filter_app, window_refilter by (intros s Hin; apply (Hall s Hin)).
    unfold window. rewrite all_samples_snoc. simpl snd. rewrite Hv.
    rewrite rev_unit. simpl fst. rewrite filter_app. reflexivity.
  - apply sorted_snoc.
    + apply window_sorted, HS.
    + apply Forall_forall. intros s Hin. apply Hall, window_incl, Hin.
Qed.

(** *** The loop variables follow the history *)

Lemma tracks_initial : tracks [] initial_state.
Proof. repeat split. Qed.

Lemma tracks_step (duration start_wall : Q) (h : list (Q * string)) (st : state)
  (now : Q) (raw : string) (st1 : state) (out : option (report * message)) (stop : bool) :
  tracks h st ->
  progress_step duration start_wall st now raw = inr (st1, out, stop) ->
  tracks (h ++ [(now, raw)]) st1.
Proof.
  intros [Hus [Hinst Hwin]] Hstep.
  destruct (progress_step_inr _ _ _ _ _ _ _ _ Hstep) as [E1 [E2 [E3 _]]].
  unfold tracks, elapsed_output_us, latest_speed.
  rewrite !most_recent_snoc. simpl snd. repeat split.
  - rewrite E1. destruct (time_field raw); [reflexivity|]. exact Hus.
  - rewrite E2. destruct (speed_field raw); [reflexivity|]. exact Hinst.
  - intros HW Hs. rewrite E3.
    assert (Hpre : StronglySorted Qle (map fst h)).
    { rewrite map_app in Hs. apply sorted_snoc_inv in Hs. apply Hs. }
    rewrite (Hwin HW Hpre).
    destruct (speed_field raw) as [v|] eqn:Ev.
    + apply window_snoc; assumption.
    + unfold window. rewrite all_samples_snoc. simpl snd. rewrite Ev.
      rewrite app_nil_r. reflexivity.
Qed.

(** Every report is [report_of] the loop variables it was computed from,
    and those follow the lines read up to it. *)
Lemma emissions_tracked (duration start_wall : Q) (lines hist : list (Q * string))
  (st : state) (h : list (Q * string)) (st' : state) (r : report) :
  tracks hist st ->
  In (h, st', r) (emissions duration start_wall hist st lines) ->
  tracks h st' /\
  (exists now, r = report_of duration start_wall st' now) /\
  (exists read rest, lines = read ++ rest /\ h = hist ++ read)%list.
Proof.
  revert hist st. induction lines as [|[now raw] lines IH]; intros hist st Ht Hin.
  - contradiction.
  - cbn [emissions] in Hin.
    destruct (progress_step_spec duration start_wall st now raw)
      as [[st1 [out [stop [E [_ [_ [_ Hr]]]]]]] | E];
      rewrite E in Hin; [|contradiction].
    pose proof (tracks_step _ _ _ _ _ _ _ _ _ Ht E) as Ht1.
    assert (Hhere : In (h, st', r)
                      match out with
                      | Some (r0, _) => [((hist ++ [(now, raw)])%list, st1, r0)]
                      | None => []
                      end ->
                    tracks h st' /\
                    (exists now0, r = report_of duration start_wall st' now0) /\
                    (exists read rest,
                        (now, raw) :: lines = read ++ rest /\ h = hist ++ read)%list).
    { destruct out as [[r0 m]|]; [|contradiction].
      intros [Heq | []]. injection Heq as <- <- <-. repeat split.
      - apply Ht1.
      - apply Ht1.
      - apply Ht1.
      - exists now. apply (Hr r0 m eq_refl).
      - exists [(now, raw)], lines. split; reflexivity. }
    destruct stop.
    + apply Hhere, Hin.
    + apply in_app_or in Hin. destruct Hin as [Hin | Hin]; [apply Hhere, Hin|].
      destruct (IH _ _ Ht1 Hin) as [Htr [Hrep [read [rest [Hl Hh]]]]].
      repeat split; try apply Htr; [exact Hrep|].
      exists ((now, raw) :: read), rest. split.
      * simpl. rewrite Hl. reflexivity.
      * rewrite Hh, <- app_assoc. reflexivity.
Qed.

(** The loop prints exactly these reports, and the only exception it
    raises is the [OverflowError] of the conversion to a float. *)
Lemma progress_loop_emissions (duration start_wall : Q) (lines hist : list (Q * string))
  (st : state) :
  map fst (fst (progress_loop duration start_wall st lines))
  = map snd (emissions duration start_wall hist st lines) /\
  (forall e, snd (progress_loop duration start_wall st lines) = inl e ->
             e = OverflowError).
Proof.
  revert hist st. induction lines as [|[now raw] lines IH]; intros hist st.
  - split; [reflexivity | discriminate].
  - cbn [progress_loop emissions].
    destruct (progress_step_spec duration start_wall st now raw)
      as [[st1 [out [stop [E _]]]] | E]; rewrite E.
    + destruct stop.
      * split; [destruct out as [[r m]|]; reflexivity | discriminate].
      * destruct (IH (hist ++ [(now, raw)])%list st1) as [H1 H2].
        destruct (progress_loop duration start_wall st1 lines) as [more res].
        simpl in H1, H2. split; [|exact H2].
        simpl. rewrite !map_app, H1. destruct out as [[r m]|]; reflexivity.
    + split; [reflexivity|]. intros e H. injection H as <-. reflexivity.
Qed.

(** *** The scenario of the specification *)

Lemma step_speed_2x (duration start_wall : Q) (st : state) (now v : Q) :
  py_float "2.0" = Some v ->
  progress_step duration start_wall st now "speed=2.0x"
  = inr ({| last_print := last_print st;
            speed_samples :=
              evict (now - ETA_AVG_WINDOW_SECONDS) (speed_samples st ++ [(now, v)]);
            out_time_us := out_time_us st;
            speed_inst := v |}, None, false).
Proof.
  intros H.
  change (progress_step duration start_wall st now "speed=2.0x")
    with (match py_float "2.0" with
          | Some speed =>
              @inr exn _
                ({| last_print := last_print st;
                    speed_samples :=
                      evict (now - ETA_AVG_WINDOW_SECONDS)
                        (speed_samples st ++ [(now, speed)]);
                    out_time_us := out_time_us st;
                    speed_inst := speed |}, @None (report * message), false)
          | None => inr (st, None, false)
          end).
  rewrite H. reflexivity.
Qed.

Lemma step_out_time_60s (duration start_wall : Q) (st : state) (now : Q) :
  py_int "60000000" = Some 60000000 ->
  progress_step duration start_wall st now "out_time_us=60000000"
  = inr ({| last_print := last_print st;
            speed_samples := speed_samples st;
            out_time_us := 60000000;
            speed_inst := speed_inst st |}, None, false).
Proof.
  intros H.
  change (progress_step duration start_wall st now "out_time_us=60000000")
    with (match py_int "60000000" with
          | Some n =>
              @inr exn _
                ({| last_print := last_print st;
                    speed_samples := speed_samples st;
                    out_time_us := n;
                    speed_inst := speed_inst st |}, @None (report * message), false)
          | None => inr (st, None, false)
          end).
  rewrite H. reflexivity.
Qed.

Lemma step_progress_end (duration start_wall : Q) (st : state) (now : Q) :
  Z.abs (out_time_us st) < FLOAT_INT_LIMIT ->
  exists m : message,
    let st1 := {| last_print := now; speed_samples := speed_samples st;
                  out_time_us := out_time_us st; speed_inst := speed_inst st |} in
    progress_step duration start_wall st now "progress=end"
    = inr (st1, Some (report_of duration start_wall st1 now, m), true).
Proof.
  intros Hrange.
  set (st1 := {| last_print := now; speed_samples := speed_samples st;
                 out_time_us := out_time_us st; speed_inst := speed_inst st |}).
  destruct (proj1 (compute_report_spec duration start_wall st1 now) Hrange) as [m Hm].
  exists m. cbv zeta.
  change (progress_step duration start_wall st now "progress=end")
    with (if Qle_bool PRINT_EVERY_SECONDS (now - last_print st) || true
          then (do r <- compute_report duration start_wall st1 now;
                inr (st1, Some r, true))%result
          else inr (st, None, true)).
  rewrite orb_true_r, Hm. reflexivity.
Qed.

(** The effective speed after one sample [v] above zero is [v], whether or
    not the sample is still in the buffer. *)
Lemma effective_speed_single (now cutoff v : Q) :
  (v == 2)%Q ->
  (effective_speed (mean (evict cutoff [(now, v)])) v == 2)%Q.
Proof.
  intros Hv. cbn [evict]. destruct (now ?= cutoff)%Q; cbn [evict mean effective_speed];
    try exact Hv.
  - assert (Ha : (sum_speeds [(now, v)] / inject_Z (Z.of_nat (length [(now, v)])) == v)%Q).
    { unfold sum_speeds. simpl. field. }
    assert (Hp : Qpositive (sum_speeds [(now, v)] / inject_Z (Z.of_nat (length [(now, v)])))
                 = true).
    { apply Qpositive_spec. rewrite Ha, Hv. reflexivity. }
    rewrite Hp, Ha. exact Hv.
  - assert (Ha : (sum_speeds [(now, v)] / inject_Z (Z.of_nat (length [(now, v)])) == v)%Q).
    { unfold sum_speeds. simpl. field. }
    assert (Hp : Qpositive (sum_speeds [(now, v)] / inject_Z (Z.of_nat (length [(now, v)])))
                 = true).
    { apply Qpositive_spec. rewrite Ha, Hv. reflexivity. }
    rewrite Hp, Ha. exact Hv.
Qed.

Lemma scenario_report (start_wall t1 t2 t3 v : Q) :
  py_float "2.0" = Some v -> (v == 2)%Q ->
  py_int "60000000" = Some 60000000 ->
  exists (r : report) (m : message) (st : state),
    progress_loop 120 start_wall initial_state
      [(t1, "speed=2.0x"); (t2, "out_time_us=60000000"); (t3, "progress=end")]
    = ([(r, m)], inr st) /\
    (done_sec r == 60)%Q /\ (pct r == 50)%Q /\
    (use_speed r == 2)%Q /\
    exists e, eta_sec r = Fin e /\ (e == 30)%Q.
Proof.
  intros Hf Hv Hi. cbn [progress_loop].
  rewrite (step_speed_2x _ _ _ _ v Hf).
  rewrite (step_out_time_60s _ _ _ _ Hi).
  match goal with
  | |- context [progress_step 120 start_wall ?s t3 "progress=end"] =>
      destruct (step_progress_end 120 start_wall s t3 ltac:(reflexivity)) as [m Hm]
  end.
  cbv zeta in Hm. rewrite Hm. cbn [app].
  eexists _, m, _. split; [reflexivity|].
  cbn [report_of done_sec pct use_speed eta_sec remaining_sec
       out_time_us speed_samples speed_inst initial_state app].
  pose proof (effective_speed_single t1 (t1 - ETA_AVG_WINDOW_SECONDS) v Hv) as Hu.
  set (use := effective_speed
                (mean (evict (t1 - ETA_AVG_WINDOW_SECONDS) [(t1, v)])) v) in *.
  assert (Hp : Qpositive use = true).
  { apply Qpositive_spec. rewrite Hu. reflexivity. }
  rewrite Hp.
  repeat split; try reflexivity.
  - exact Hu.
  - eexists. split; [reflexivity|]. rewrite Hu. reflexivity.
Qed.

(** *** The reports *)

Lemma sorted_prefix {A : Type} (R : A -> A -> Prop) (l1 l2 : list A) :
  StronglySorted R (l1 ++ l2) -> StronglySorted R l1.
Proof.
  induction l1 as [|a l1 IH]; simpl; intros H; [constructor|].
  inversion H as [|? ? Hs Hall]; subst. constructor; [apply IH, Hs|].
  rewrite Forall_forall in *. intros b Hb. apply Hall, in_or_app. left. exact Hb.
Qed.

(** C3: every report has done = min(elapsed output time, duration),
    remaining = max(0, duration - done), and percent = min(done / duration
    * 100, 100) for a duration above zero and 0 otherwise, where the
    elapsed output time is the most recently received time value.  For a
    source of 120 seconds that sends speed=2.0x, out_time_us=60000000 and
    progress=end, the one report has done 60, percent 50 and ETA 30. *)
Theorem report_progress_fields :
  (forall (duration start_wall : Q) (lines : list (Q * string)),
      map fst (fst (progress_loop duration start_wall initial_state lines))
      = map snd (emissions duration start_wall [] initial_state lines) /\
      forall (h : list (Q * string)) (st : state) (r : report),
        In (h, st, r) (emissions duration start_wall [] initial_state lines) ->
        done_sec r = Qmin (elapsed_output_time h) duration /\
        remaining_sec r = Qmax 0 (duration - done_sec r) /\
        ((0 < duration)%Q -> pct r = Qmin (done_sec r / duration * 100) 100) /\
        (~ (0 < duration)%Q -> pct r = 0%Q)) /\
  (forall (start_wall t1 t2 t3 v : Q),
      py_float "2.0" = Some v -> (v == 2)%Q ->
      py_int "60000000" = Some 60000000 ->
      exists (r : report) (m : message) (st : state),
        progress_loop 120 start_wall initial_state
          [(t1, "speed=2.0x"); (t2, "out_time_us=60000000"); (t3, "progress=end")]
        = ([(r, m)], inr st) /\
        (done_sec r == 60)%Q /\ (pct r == 50)%Q /\
        (use_speed r == 2)%Q /\
        exists e, eta_sec r = Fin e /\ (e == 30)%Q).
Proof.
  split.
  - intros duration start_wall lines. split.
    + apply (proj1 (progress_loop_emissions duration start_wall lines []
                      initial_state)).
    + intros h st r Hin.
      destruct (emissions_tracked _ _ _ _ _ _ _ _ tracks_initial Hin)
        as [[Hus _] [[now ->] _]].
      unfold elapsed_output_time. rewrite <- Hus.
      cbn [report_of done_sec remaining_sec pct]. repeat split.
      * intros Hd. apply Qpositive_spec in Hd. rewrite Hd. reflexivity.
      * intros Hd. destruct (Qpositive duration) eqn:E; [|reflexivity].
        apply Qpositive_spec in E. contradiction.
  - apply scenario_report.
Qed.




(** C5, as the code has it: samples are evicted when a speed sample
    arrives, against the window that ends at that arrival.  Under a clock
    that never runs backwards the mean of every report is taken over
    exactly the samples received that are no older than the window counted
    back from the arrival of the latest sample. *)
Theorem window_at_latest_sample :
  forall (duration start_wall : Q) (lines h : list (Q * string))
         (st : state) (r : report),
    (0 <= ETA_AVG_WINDOW_SECONDS)%Q ->
    StronglySorted Qle (map fst lines) ->
    In (h, st, r) (emissions duration start_wall [] initial_state lines) ->
    speed_samples st = window h /\
    avg_speed r = mean (window h) /\
    forall s : Q * Q,
      In s (speed_samples st) <->
      exists t_last,
        latest_arrival h = Some t_last /\
        In s (all_samples h) /\
        (t_last - ETA_AVG_WINDOW_SECONDS <= fst s)%Q.
Proof.
  intros duration start_wall lines h st r HW Hsorted Hin.
  destruct (emissions_tracked _ _ _ _ _ _ _ _ tracks_initial Hin)
    as [[_ [_ Hwin]] [[now ->] [read [rest [Hl Hh]]]]].
  simpl in Hh. subst h lines.
  rewrite map_app in Hsorted. apply sorted_prefix in Hsorted.
  specialize (Hwin HW Hsorted).
  split; [exact Hwin|]. split; [cbn [report_of avg_speed]; rewrite Hwin; reflexivity|].
  intros s. rewrite Hwin. unfold window, latest_arrival.
  destruct (rev (all_samples read)) as [|[t v] l].
  - split; [contradiction | intros [t_last [H _]]; discriminate].
  - rewrite filter_In, keep_spec. split.
    + intros [H1 H2]. exists t. auto.
    + intros [t_last [Ht [H1 H2]]]. injection Ht as <-. auto.
Qed.

End Estimator.

Lemma report_progress_fields_witness :
  exists (r : report) (m : message) (st : state),
    progress_loop (builtins := Demo.builtins) (cfg := source_config) 120 999 initial_state Demo.scenario_lines
    = ([(r, m)], inr st) /\
    (done_sec r == 60)%Q /\ (pct r == 50)%Q /\
    (use_speed r == 2)%Q /\
    exists e, eta_sec r = Fin e /\ (e == 30)%Q.
Proof.
  apply (proj2 (@report_progress_fields Demo.builtins source_config)
           999 1000 1001 1002 (20 # 10))%Q; reflexivity.
Defined.

Lemma window_at_latest_sample_witness :
  exists (h : list (Q * string)) (st : state) (r : report),
    In (h, st, r)
      (emissions (builtins := Demo.builtins) (cfg := source_config) 120 999 [] initial_state Demo.scenario_lines) /\
    speed_samples st = window (builtins := Demo.builtins) (cfg := source_config) h /\
    avg_speed r = mean (window (builtins := Demo.builtins) (cfg := source_config) h).
Proof.
  assert (Hw : (0 <= ETA_AVG_WINDOW_SECONDS (Config := source_config))%Q)
    by (unfold Qle; simpl; lia).
  assert (Hs : StronglySorted Qle (map fst Demo.scenario_lines)).
  { repeat constructor; unfold Qle; simpl; lia. }
  assert (Hin : In (Demo.scenario_lines,
                    {| last_print := 1002; speed_samples := [(1000, 20 # 10)];
                       out_time_us := 60000000; speed_inst := 20 # 10 |}%Q,
                    report_of 120 999
                      {| last_print := 1002; speed_samples := [(1000, 20 # 10)];
                         out_time_us := 60000000; speed_inst := 20 # 10 |}%Q 1002)
                   (emissions (builtins := Demo.builtins) (cfg := source_config) 120 999 []
                      initial_state Demo.scenario_lines)).
  { left. reflexivity. }
  eexists _, _, _. split; [exact Hin|].
  destruct (@window_at_latest_sample Demo.builtins source_config
              120 999 Demo.scenario_lines _ _ _ Hw Hs Hin) as [H1 [H2 _]].
  split; [exact H1 | exact H2].
Defined.

(** C5 as stated fails: the buffer is only pruned when a speed sample
    arrives.  A sample taken at clock 0 is still averaged by the report
    computed at clock 100, forty seconds after it left the window of 60. *)
Lemma stale_sample_in_mean :
  exists (st : state) (r : report),
    emissions (builtins := Demo.builtins) (cfg := source_config) 120 0 [] initial_state Demo.stale_lines
    = [(Demo.stale_lines, st, r)] /\
    last_print st = 100%Q /\
    speed_samples st = [(0, 20 # 10)]%Q /\
    avg_speed r = mean [(0, 20 # 10)]%Q /\
    (0 < 100 - ETA_AVG_WINDOW_SECONDS (Config := source_config))%Q.
Proof.
  eexists _, _. split; [reflexivity|]. repeat split.
Qed.

(** ** The batch *)

Section Batch.

Context {builtins : Builtins} {cfg : Config} {W : Type} {world : World W}.

Local Open Scope monad_scope.

Lemma attempts_app (t1 t2 : list event) :
  attempts (t1 ++ t2) = (attempts t1 ++ attempts t2)%list.
Proof. apply flat_map_app. Qed.

Lemma attempts_cons (ev : event) (t : list event) :
  attempts (ev :: t)
  = (match ev with Popen cmd => [cmd] | _ => [] end ++ attempts t)%list.
Proof. reflexivity. Qed.

Lemma attempts_prints (ms : list message) : attempts (map Print ms) = [].
Proof. induction ms; simpl; auto. Qed.

(** *** Rules for [traced] *)

Lemma traced_ret {A : Type} (P : event -> Prop) (a : A) : traced W P (ret a).
Proof. intros w. constructor. Qed.

Lemma traced_raise {A : Type} (P : event -> Prop) (e : exn) : traced W P (@raise W A e).
Proof. intros w. constructor. Qed.

Lemma traced_lift {A : Type} (P : event -> Prop) (r : result A) : traced W P (@lift W A r).
Proof. intros w. constructor. Qed.

Lemma traced_print (P : event -> Prop) (m : message) :
  P (Print m) -> traced W P (@print W m).
Proof. intros H w. repeat constructor. exact H. Qed.

Lemma traced_print_all (P : event -> Prop) (ms : list message) :
  (forall m, P (Print m)) -> traced W P (print_all ms).
Proof.
  intros H w. unfold print_all. simpl. apply Forall_forall. intros ev Hin.
  apply in_map_iff in Hin. destruct Hin as [m [<- _]]. apply H.
Qed.

Lemma traced_bind {A B : Type} (P : event -> Prop) (m : M W A) (f : A -> M W B) :
  traced W P m -> (forall a, traced W P (f a)) -> traced W P (bind m f).
Proof.
  intros Hm Hf w. unfold bind. specialize (Hm w).
  destruct (m w) as [[t w1] [e | a]]; [exact Hm|].
  specialize (Hf a w1). destruct (f a w1) as [[t' w2] r].
  simpl in *. apply Forall_app. split; assumption.
Qed.

Lemma traced_try_RuntimeError {A : Type} (P : event -> Prop)
  (body : M W A) (handler : string -> M W A) :
  traced W P body -> (forall msg, traced W P (handler msg)) ->
  traced W P (try_except_RuntimeError body handler).
Proof.
  intros Hb Hh w. unfold try_except_RuntimeError. specialize (Hb w).
  destruct (body w) as [[t w1] [e | a]]; [|exact Hb].
  destruct e; try exact Hb.
  specialize (Hh msg w1). destruct (handler msg w1) as [[t' w2] r].
  simpl in *. apply Forall_app. split; assumption.
Qed.

Lemma traced_try_Exception {A : Type} (P : event -> Prop) (body : M W A) (fallback : A) :
  traced W P body -> traced W P (try_except_Exception body fallback).
Proof.
  intros Hb w. unfold try_except_Exception. specialize (Hb w).
  destruct (body w) as [[t w1] [e | a]]; exact Hb.
Qed.

Lemma traced_for_each {A : Type} (P : event -> Prop) (xs : list A) (body : A -> M W unit) :
  (forall x, traced W P (body x)) -> traced W P (for_each xs body).
Proof.
  intros H. induction xs as [|x xs IH]; simpl.
  - apply traced_ret.
  - apply traced_bind; [apply H | intros _; exact IH].
Qed.

Lemma traced_run_capture (P : event -> Prop) (cmd : list string) :
  P (Run cmd) -> traced W P (run_capture cmd).
Proof.
  intros H w. unfold run_capture. destruct (sys_run cmd w) as [r w1].
  repeat constructor. exact H.
Qed.

Lemma traced_popen (P : event -> Prop) (cmd : list string) :
  P (Popen cmd) -> traced W P (popen cmd).
Proof.
  intros H w. unfold popen. destruct (sys_popen cmd w) as [[proc|] w1];
    repeat constructor; exact H.
Qed.

Lemma traced_path_exists (P : event -> Prop) (p : path) : traced W P (path_exists p).
Proof. intros w. constructor. Qed.

Lemma traced_encode_with_eta (allowed : list string -> Prop)
  (out : path) (cmd : list string) (duration : Q) :
  allowed cmd -> traced W (starts_only allowed) (encode_with_eta out cmd duration).
Proof.
  intros H. unfold encode_with_eta.
  apply traced_bind; [apply traced_lift|]. intros hms.
  apply traced_bind; [apply traced_print; exact I|]. intros _.
  apply traced_bind; [apply traced_popen; exact H|]. intros proc.
  destruct (progress_loop duration (p_start proc) initial_state (p_stdout proc))
    as [printed r].
  apply traced_bind; [apply traced_print_all; intros m; exact I|]. intros _.
  destruct r as [e | st]; [apply traced_raise|].
  destruct (negb (p_returncode proc =? 0)); [apply traced_raise|].
  apply traced_print. exact I.
Qed.

Lemma traced_weaken {A : Type} (P P' : event -> Prop) (m : M W A) :
  (forall ev, P ev -> P' ev) -> traced W P m -> traced W P' m.
Proof.
  intros H Hm w. specialize (Hm w). rewrite Forall_forall in *. auto.
Qed.

(** *** One encode *)

Lemma encode_with_eta_inv (out : path) (cmd : list string) (duration : Q)
  (w : W) (t : list event) (w' : W) (r : result unit) :
  encode_with_eta out cmd duration w = (t, w', r) ->
  attempts t = [cmd] /\
  forall msg, r = inl (RuntimeError msg) -> msg <> EmptyString.
Proof.
  unfold encode_with_eta, bind, lift, print, popen, print_all, raise.
  destruct (fmt_hms_fin_defined duration) as [hms ->].
  destruct (sys_popen cmd w) as [[proc|] w1].
  - destruct (progress_loop_emissions duration (p_start proc) (p_stdout proc) []
                initial_state) as [_ Hraise].
    destruct (progress_loop duration (p_start proc) initial_state (p_stdout proc))
      as [printed res].
    simpl in Hraise. destruct res as [e | st'].
    + rewrite (Hraise e eq_refl). intros H. injection H as <- <- <-.
      split; [rewrite !attempts_cons, attempts_app, attempts_prints; reflexivity|].
      intros msg Hm. discriminate.
    + destruct (negb (p_returncode proc =? 0)); intros H; injection H as <- <- <-;
        (split; [rewrite !attempts_cons, attempts_app, attempts_prints; reflexivity|]).
      * intros msg Hm. injection Hm as <-. discriminate.
      * intros msg Hm. discriminate.
  - intros H. injection H as <- <- <-. split; [reflexivity|].
    intros msg Hm. discriminate.
Qed.

(** *** Kinds of command *)

Lemma traced_ffprobe_info (P : event -> Prop) (video : path) :
  (forall cmd, P (Run cmd)) -> traced W P (ffprobe_info video).
Proof.
  intros H. unfold ffprobe_info.
  apply traced_bind; [apply traced_run_capture, H | intros out; apply traced_lift].
Qed.

Lemma traced_cpu_fallback (video : path) (w h : Z) (duration : Q) (err : string) :
  traced W (starts_only is_cpu_master_cmd) (cpu_fallback video w h duration err).
Proof.
  unfold cpu_fallback.
  apply traced_bind; [apply traced_print; exact I|]. intros _.
  apply traced_bind; [apply traced_lift|]. intros l.
  apply traced_bind; [apply traced_print; exact I|]. intros _.
  apply traced_bind; [apply traced_path_exists|]. intros ex.
  destruct ex; [apply traced_print; exact I|].
  apply traced_encode_with_eta. eexists _, _, _, _. reflexivity.
Qed.

(** Outside hardware mode a file starts software-master commands only. *)
Lemma traced_process_video_cpu (mode : string) (video : path) :
  String.eqb mode "intel_qsv" = false ->
  traced W (starts_only is_cpu_master_cmd) (process_video mode video).
Proof.
  intros Hmode. unfold process_video.
  apply traced_bind; [apply traced_ffprobe_info; intros cmd; exact I|].
  intros [[[duration w] h] fps].
  destruct (SKIP_IF_4K_OR_HIGHER && ((3840 <=? w) || (2160 <=? h)));
    [apply traced_print; exact I|].
  rewrite Hmode.
  apply traced_bind; [apply traced_path_exists|]. intros ex.
  destruct ex; [apply traced_print; exact I|].
  apply traced_bind; [apply traced_print; exact I|]. intros _.
  apply traced_encode_with_eta. eexists _, _, _, _. reflexivity.
Qed.

(** In any mode a file starts commands of the two builders only. *)
Lemma traced_process_video (mode : string) (video : path) :
  traced W (starts_only (fun cmd => is_intel_qsv_cmd cmd \/ is_cpu_master_cmd cmd))
    (process_video mode video).
Proof.
  destruct (String.eqb mode "intel_qsv") eqn:Hmode.
  - unfold process_video.
    apply traced_bind; [apply traced_ffprobe_info; intros cmd; exact I|].
    intros [[[duration w] h] fps].
    destruct (SKIP_IF_4K_OR_HIGHER && ((3840 <=? w) || (2160 <=? h)));
      [apply traced_print; exact I|].
    rewrite Hmode.
    apply traced_bind; [apply traced_path_exists|]. intros ex.
    destruct ex; [apply traced_print; exact I|].
    apply traced_bind; [apply traced_print; exact I|]. intros _.
    apply traced_try_RuntimeError.
    + apply traced_encode_with_eta. left. eexists _, _, _, _. reflexivity.
    + intros msg. apply (traced_weaken (starts_only is_cpu_master_cmd)).
      * intros [m | cmd | cmd]; simpl; auto.
      * apply traced_cpu_fallback.
  - apply (traced_weaken (starts_only is_cpu_master_cmd)).
    + intros [m | cmd | cmd]; simpl; auto.
    + apply traced_process_video_cpu, Hmode.
Qed.

Lemma traced_ffmpeg_has_encoder (P : event -> Prop) (name : string) :
  (forall cmd, P (Run cmd)) -> traced W P (ffmpeg_has_encoder name).
Proof.
  intros H. unfold ffmpeg_has_encoder. apply traced_try_Exception.
  apply traced_bind; [apply traced_run_capture, H | intros out; apply traced_ret].
Qed.

Lemma traced_run_batch (videos : list path) :
  traced W (starts_only (fun cmd => is_intel_qsv_cmd cmd \/ is_cpu_master_cmd cmd))
    (run_batch videos).
Proof.
  unfold run_batch, intel_qsv_available.
  apply traced_bind.
  { apply traced_bind; [apply traced_ffmpeg_has_encoder; intros; exact I|].
    intros a. destruct a; [apply traced_ret|].
    apply traced_ffmpeg_has_encoder; intros; exact I. }
  intros qsv_ok.
  apply traced_bind.
  { destruct (String.eqb MODE "intel_qsv" && negb qsv_ok);
      [apply traced_print; exact I | apply traced_ret]. }
  intros _.
  apply traced_bind; [|intros _; apply traced_print; exact I].
  apply traced_for_each. intros video. apply traced_process_video.
Qed.

Lemma traced_main :
  traced W (starts_only (fun cmd => is_intel_qsv_cmd cmd \/ is_cpu_master_cmd cmd)) main.
Proof.
  unfold main.
  apply traced_bind.
  { unfold ffmpeg_exists. apply traced_try_Exception.
    apply traced_bind; [apply traced_run_capture; exact I | intros; apply traced_ret]. }
  intros ok. destruct (negb ok); [apply traced_raise|].
  intros w. destruct (negb (sys_exists INPUT_DIR w)); [apply traced_raise|].
  revert w. change (traced W (starts_only (fun cmd => is_intel_qsv_cmd cmd \/ is_cpu_master_cmd cmd))
                      (mkdir_output ;;;
                       videos <- list_videos ;;
                       match videos with
                       | [] => print MsgNoVideos
                       | _ :: _ => run_batch videos
                       end)).
  apply traced_bind.
  { intros w. unfold mkdir_output. destruct (sys_mkdir OUTPUT_DIR w) as [[e|] w1]; constructor. }
  intros _. apply traced_bind.
  { intros w. unfold list_videos. destruct (sys_iterdir INPUT_DIR w); constructor. }
  intros videos. destruct videos; [apply traced_print; exact I | apply traced_run_batch].
Qed.

(** [main] reaches the batch once ffmpeg answers, the input folder
    exists, the output folder can be made and the input folder holds a
    video. *)
Lemma main_runs_batch (w w1 w2 : W) (t : list event)
  (found : list (path * bool)) (video : path) (videos : list path) :
  ffmpeg_exists w = (t, w1, inr true) ->
  sys_exists INPUT_DIR w1 = true ->
  sys_mkdir OUTPUT_DIR w1 = (None, w2) ->
  sys_iterdir INPUT_DIR w2 = inr found ->
  map fst (filter is_video found) = video :: videos ->
  main w
  = match run_batch (video :: videos) w2 with
    | (t', w', r) => ((t ++ t')%list, w', r)
    end.
Proof.
  intros Hff Hdir Hmk Hls Hvs. unfold main. unfold bind at 1. rewrite Hff.
  cbn [negb]. rewrite Hdir. cbn [negb].
  unfold bind at 1. unfold mkdir_output at 1. rewrite Hmk.
  unfold bind at 1. unfold list_videos at 1. rewrite Hls, Hvs.
  destruct (run_batch (video :: videos) w2) as [[t' w'] r]. reflexivity.
Qed.

(** *** The encoder of a hardware command *)

(** C9: the hardware builder always names [h264_qsv] as the video
    encoder, for every source; and whatever the encoder listing answered,
    every ffmpeg that [main] starts encodes with [h264_qsv] or [libx265],
    never with [hevc_qsv]. *)
Theorem hardware_encoder_is_h264 :
  (forall (input output : path) (src_w src_h : Z),
      codec_of (build_cmd_intel_qsv input output src_w src_h) = Some "h264_qsv") /\
  (forall (w : W) (cmd : list string),
      In (Popen cmd) (fst (fst (main w))) ->
      (codec_of cmd = Some "h264_qsv" \/ codec_of cmd = Some "libx265") /\
      codec_of cmd <> Some "hevc_qsv").
Proof.
  split; [reflexivity|].
  intros w cmd Hin.
  pose proof (traced_main w) as H. rewrite Forall_forall in H.
  specialize (H _ Hin). simpl in H.
  destruct H as [[i [o [sw [sh ->]]]] | [i [o [sw [sh ->]]]]].
  - split; [left; reflexivity | discriminate].
  - split; [right; reflexivity | discriminate].
Qed.

(** *** The loop over the files *)

Lemma for_each_app {A : Type} (xs ys : list A) (body : A -> M W unit) (w : W) :
  for_each (xs ++ ys) body w
  = match for_each xs body w with
    | (t, w1, inl e) => (t, w1, inl e)
    | (t, w1, inr _) =>
        match for_each ys body w1 with
        | (t', w2, r) => ((t ++ t')%list, w2, r)
        end
    end.
Proof.
  revert w. induction xs as [|x xs IH]; intros w.
  - simpl. unfold ret. destruct (for_each ys body w) as [[t' w2] r]. reflexivity.
  - simpl. unfold bind. destruct (body x w) as [[t w1] [e | []]]; [reflexivity|].
    rewrite IH. destruct (for_each xs body w1) as [[t1 w2] [e | []]]; [reflexivity|].
    destruct (for_each ys body w2) as [[t2 w3] r]. rewrite app_assoc. reflexivity.
Qed.

(** An exception in the body leaves the loop: the files after it are not
    touched. *)
Lemma for_each_raises {A : Type} (before rest : list A) (x : A)
  (body : A -> M W unit) (w0 w w1 : W) (t0 t : list event) (e : exn) :
  for_each before body w0 = (t0, w, inr tt) ->
  body x w = (t, w1, inl e) ->
  for_each (before ++ x :: rest) body w0 = ((t0 ++ t)%list, w1, inl e).
Proof.
  intros H0 Hx. rewrite for_each_app, H0. simpl. unfold bind. rewrite Hx. reflexivity.
Qed.

(** *** Probe failures *)

(** The tool is missing or exits with an error: [ffprobe_info] raises what
    [subprocess.run] raised. *)
Lemma ffprobe_info_tool_failure (video : path) (w : W) (e : exn) :
  fst (sys_run (ffprobe_cmd video) w) = inl e ->
  ffprobe_info video w
  = ([Run (ffprobe_cmd video)], snd (sys_run (ffprobe_cmd video) w), inl e).
Proof.
  intros H. unfold ffprobe_info, bind, run_capture.
  destruct (sys_run (ffprobe_cmd video) w) as [r w1]. simpl in *. subst r. reflexivity.
Qed.

(** The answer lacks a required field: [ffprobe_info] raises [KeyError]. *)
Lemma probe_fields_missing (stdout : string) (data : json) :
  json_loads stdout = Some data ->
  (subscript_key data "format" = inl KeyError ->
   probe_fields stdout = inl KeyError) /\
  (forall fmt, subscript_key data "format" = inr fmt ->
               subscript_key fmt "duration" = inl KeyError ->
               probe_fields stdout = inl KeyError) /\
  (forall fmt dur duration streams s,
      subscript_key data "format" = inr fmt ->
      subscript_key fmt "duration" = inr dur ->
      float_of_json dur = inr duration ->
      subscript_key data "streams" = inr streams ->
      subscript_0 streams = inr s ->
      (subscript_key s "width" = inl KeyError -> probe_fields stdout = inl KeyError) /\
      (forall wj w, subscript_key s "width" = inr wj -> int_of_json wj = inr w ->
                    subscript_key s "height" = inl KeyError ->
                    probe_fields stdout = inl KeyError)).
Proof.
  intros Hd. unfold probe_fields. rewrite Hd. split; [|split].
  - intros ->. reflexivity.
  - intros fmt -> H. cbn [rbind]. rewrite H. reflexivity.
  - intros fmt dur duration streams s -> H1 H2 H3 H4. cbn [rbind].
    rewrite H1. cbn [rbind]. rewrite H2. cbn [rbind]. rewrite H3. cbn [rbind].
    rewrite H4. cbn [rbind]. split.
    + intros ->. reflexivity.
    + intros wj w -> Hw H. cbn [rbind]. rewrite Hw. cbn [rbind]. rewrite H. reflexivity.
Qed.

(** C2, as the code has it: a probe failure is not retried and is not
    caught.  The tool is run once, the exception leaves the loop over the
    files, and no later file is probed or encoded. *)
Theorem probe_failure_aborts_batch :
  forall (mode : string) (video : path) (w : W) (t : list event) (w1 : W) (e : exn),
    ffprobe_info video w = (t, w1, inl e) ->
    t = [Run (ffprobe_cmd video)] /\
    process_video mode video w = (t, w1, inl e) /\
    forall (before rest : list path) (w0 : W) (t0 : list event),
      for_each before (process_video mode) w0 = (t0, w, inr tt) ->
      for_each (before ++ video :: rest) (process_video mode) w0
      = ((t0 ++ t)%list, w1, inl e).
Proof.
  intros mode video w t w1 e H.
  assert (Hp : process_video mode video w = (t, w1, inl e)).
  { unfold process_video, bind. rewrite H. reflexivity. }
  split; [|split; [exact Hp|]].
  - unfold ffprobe_info, bind, run_capture, lift in H.
    destruct (sys_run (ffprobe_cmd video) w) as [[e' | out] w2].
    + injection H as <- _ _. reflexivity.
    + injection H as <- _ _. reflexivity.
  - intros before rest w0 t0 H0. apply (for_each_raises _ _ _ _ _ _ _ _ _ _ H0 Hp).
Qed.

(** *** The downgrade *)

Lemma intel_qsv_available_trace (w : W) (t : list event) (w' : W) (r : result bool) :
  intel_qsv_available w = (t, w', r) -> Forall (fun ev => ev = Run encoders_cmd) t.
Proof.
  unfold intel_qsv_available, bind. rewrite ffmpeg_has_encoder_run.
  destruct (lists_encoder "hevc_qsv" (fst (sys_run encoders_cmd w))).
  - unfold ret. intros H. injection H as <- _ _. repeat constructor.
  - rewrite ffmpeg_has_encoder_run. intros H. injection H as <- _ _. repeat constructor.
Qed.


(** *** The fallback *)

(** C1, as the code has it: when the hardware encode of a file fails with
    a non-zero exit code, the failure is announced and, if the
    software-master output exists already, the file is skipped after that
    one attempt; otherwise exactly one software-master encode follows.
    Whatever that second attempt gives is the outcome for the file: there
    is no third attempt, and an exception of the second attempt is not
    caught, so it leaves the loop over the files. *)
Theorem fallback_once :
  forall (video : path) (w w1 w2 : W) (tp t1 : list event)
         (duration fps : Q) (src_w src_h : Z) (msg : string),
    ffprobe_info video w = (tp, w1, inr (duration, src_w, src_h, fps)) ->
    SKIP_IF_4K_OR_HIGHER && ((3840 <=? src_w) || (2160 <=? src_h)) = false ->
    sys_exists (path_str (out_qsv_of video)) w1 = false ->
    encode_with_eta (out_qsv_of video) (hardware_cmd video src_w src_h) duration w1
    = (t1, w2, inl (RuntimeError msg)) ->
    exists (t : list event) (w' : W) (r : result unit),
      process_video "intel_qsv" video w = (t, w', r) /\
      In (Print MsgQsvFailed) t /\
      (sys_exists (path_str (out_cpu_of video)) w2 = true ->
       attempts t = [hardware_cmd video src_w src_h] /\ r = inr tt /\ w' = w2 /\
       In (Print (MsgSkipCpuFallback (path_name (out_cpu_of video)))) t) /\
      (sys_exists (path_str (out_cpu_of video)) w2 = false ->
       attempts t = [hardware_cmd video src_w src_h; software_cmd video src_w src_h] /\
       exists t2,
         encode_with_eta (out_cpu_of video) (software_cmd video src_w src_h) duration w2
         = (t2, w', r)) /\
      (forall (e : exn) (before rest : list path) (w0 : W) (t0 : list event),
          r = inl e ->
          for_each before (process_video "intel_qsv") w0 = (t0, w, inr tt) ->
          for_each (before ++ video :: rest) (process_video "intel_qsv") w0
          = ((t0 ++ t)%list, w', inl e)).
Proof.
  intros video w w1 w2 tp t1 duration fps src_w src_h msg Hprobe Hskip Hout Henc.
  destruct (encode_with_eta_inv _ _ _ _ _ _ _ Henc) as [Hatt1 Hmsg].
  destruct (last_line_defined msg (Hmsg msg eq_refl)) as [l Hl].
  assert (Htp : attempts tp = []).
  { unfold ffprobe_info, bind, run_capture, lift in Hprobe.
    destruct (sys_run (ffprobe_cmd video) w) as [[e' | out] w3];
      injection Hprobe as <- _ _; reflexivity. }
  (* the handler, run in the world the failed attempt left *)
  destruct (cpu_fallback video src_w src_h duration msg w2) as [[th wh] rh] eqn:Eh.
  assert (Hproc : process_video "intel_qsv" video w
                  = ((tp ++ [] ++ [Print (MsgEncoding (path_name video) src_w src_h
                                            "intel_qsv")] ++ t1 ++ th)%list, wh, rh)).
  { unfold process_video. unfold bind at 1. rewrite Hprobe, Hskip.
    change (String.eqb "intel_qsv" "intel_qsv") with true. cbv iota.
    unfold bind at 1. unfold path_exists at 1. rewrite Hout.
    unfold bind at 1. unfold print at 1.
    unfold try_except_RuntimeError. fold (hardware_cmd video src_w src_h).
    rewrite Henc, Eh. reflexivity. }
  exists (tp ++ [] ++ [Print (MsgEncoding (path_name video) src_w src_h "intel_qsv")]
          ++ t1 ++ th)%list, wh, rh.
  split; [exact Hproc|].
  (* what the handler did *)
  unfold cpu_fallback in Eh. unfold bind at 1 in Eh. unfold print at 1 in Eh.
  unfold bind at 1 in Eh. unfold lift at 1 in Eh. rewrite Hl in Eh.
  unfold bind at 1 in Eh. unfold print at 1 in Eh.
  unfold bind at 1 in Eh. unfold path_exists at 1 in Eh.
  fold (software_cmd video src_w src_h) in Eh.
  assert (Hfailed : forall rest, In (Print MsgQsvFailed)
                      (tp ++ [] ++ [Print (MsgEncoding (path_name video) src_w src_h
                                             "intel_qsv")] ++ t1
                       ++ [Print MsgQsvFailed] ++ rest)%list).
  { intros rest. apply in_or_app. right. apply in_or_app. right. apply in_or_app. right.
    apply in_or_app. right. left. reflexivity. }
  destruct (sys_exists (path_str (out_cpu_of video)) w2) eqn:Ecpu.
  - unfold print in Eh. injection Eh as <- <- <-.
    split; [apply Hfailed|]. split; [|split].
    + intros _. repeat split.
      * repeat (rewrite attempts_app || rewrite attempts_cons).
        rewrite Htp, Hatt1. reflexivity.
      * apply in_or_app. right. apply in_or_app. right. apply in_or_app. right.
        apply in_or_app. right. right. right. left. reflexivity.
    + discriminate.
    + intros e before rest w0 t0 He. discriminate.
  - destruct (encode_with_eta (out_cpu_of video) (software_cmd video src_w src_h)
                duration w2) as [[t2 w3] r2] eqn:E2.
    destruct (encode_with_eta_inv _ _ _ _ _ _ _ E2) as [Hatt2 _].
    injection Eh as <- <- <-.
    split; [apply Hfailed|]. split; [discriminate|]. split.
    + intros _. split.
      * repeat (rewrite attempts_app || rewrite attempts_cons).
        rewrite Htp, Hatt1, Hatt2. reflexivity.
      * exists t2. reflexivity.
    + intros e before rest w0 t0 -> H0.
      apply (for_each_raises _ _ _ _ _ _ _ _ _ _ H0 Hproc).
Qed.

End Batch.

(** ** The batch on concrete worlds *)

Lemma probe_failure_aborts_batch_witness :
  for_each [Demo.video_a; Demo.video_b]
    (process_video (builtins := Demo.builtins) (cfg := source_config)
      (world := Demo.world) "intel_qsv")
    Demo.at_file_probe_fails
  = ([Run (ffprobe_cmd Demo.video_a)],
     {| Demo.runs := [inr "1080p"]; Demo.procs := [Some Demo.succeeding];
        Demo.files := []; Demo.entries := Demo.two_videos |},
     inl CalledProcessError).
Proof.
  apply (proj2 (proj2
           (@probe_failure_aborts_batch Demo.builtins source_config _ Demo.world
              "intel_qsv" Demo.video_a Demo.at_file_probe_fails
              [Run (ffprobe_cmd Demo.video_a)] _ CalledProcessError eq_refl))
           [] [Demo.video_b] Demo.at_file_probe_fails []).
  reflexivity.
Defined.

(** C2 as stated fails: with two videos in the folder and a probe of the
    first that exits with an error, [main] ends with that exception; the
    second video is never probed and nothing is encoded. *)
Lemma probe_failure_ends_main :
  snd (main (builtins := Demo.builtins) (cfg := source_config)
      (world := Demo.world) Demo.probe_fails)
  = inl CalledProcessError /\
  tools_run (fst (fst (main (builtins := Demo.builtins) (cfg := source_config)
      (world := Demo.world)
                         Demo.probe_fails)))
  = [["ffmpeg"; "-version"]; encoders_cmd; ffprobe_cmd Demo.video_a] /\
  attempts (fst (fst (main (builtins := Demo.builtins) (cfg := source_config)
      (world := Demo.world)
                        Demo.probe_fails)))
  = [].
Proof. repeat split. Qed.

Lemma fallback_once_witness :
  exists (t : list event) (w' : Demo.script) (r : result unit),
    process_video (builtins := Demo.builtins) (cfg := source_config)
      (world := Demo.world)
      "intel_qsv" Demo.video_a Demo.at_file_encodes_fail = (t, w', r) /\
    attempts t
    = [hardware_cmd (cfg := source_config) Demo.video_a 1920 1080;
       software_cmd (cfg := source_config) Demo.video_a 1920 1080].
Proof.
  destruct (@fallback_once Demo.builtins source_config _ Demo.world
              Demo.video_a Demo.at_file_encodes_fail
              {| Demo.runs := []; Demo.procs := [Some Demo.failing; Some Demo.failing];
                 Demo.files := []; Demo.entries := Demo.two_videos |}
              {| Demo.runs := []; Demo.procs := [Some Demo.failing];
                 Demo.files := []; Demo.entries := Demo.two_videos |}
              [Run (ffprobe_cmd Demo.video_a)]
              [Print (MsgDuration "00:02:00" "a_4k_qsv.mp4");
               Popen (hardware_cmd (cfg := source_config) Demo.video_a 1920 1080)]
              (1200 # 10)%Q (30 / 1)%Q 1920 1080
              ("ffmpeg failed with exit code 1" ++ newline ++ "boom")
              eq_refl eq_refl eq_refl eq_refl)
    as [t [w' [r [Hp [_ [_ [H _]]]]]]].
  exists t, w', r. split; [exact Hp|]. apply (H eq_refl).
Defined.

(** C1 as stated fails: with two videos in the folder, a hardware encode
    of the first that fails and a software-master encode of it that fails
    too, [main] ends with the second exception; the second video is never
    probed. *)
Lemma second_failure_ends_main :
  snd (main (builtins := Demo.builtins) (cfg := source_config)
      (world := Demo.world) Demo.encodes_fail)
  = inl (RuntimeError ("ffmpeg failed with exit code 1" ++ newline ++ "boom")) /\
  tools_run (fst (fst (main (builtins := Demo.builtins) (cfg := source_config)
      (world := Demo.world)
                         Demo.encodes_fail)))
  = [["ffmpeg"; "-version"]; encoders_cmd; ffprobe_cmd Demo.video_a] /\
  attempts (fst (fst (main (builtins := Demo.builtins) (cfg := source_config)
      (world := Demo.world)
                        Demo.encodes_fail)))
  = [hardware_cmd (cfg := source_config) Demo.video_a 1920 1080;
     software_cmd (cfg := source_config) Demo.video_a 1920 1080].
Proof. repeat split. Qed.


(** * Further properties of the code *)

(** ** The duration formatter on the inputs it handles *)



(** X2: [None], every negative number and both infinities give the
    placeholder, and NaN is the only input on which the formatter raises. *)
Theorem fmt_hms_placeholder_cases :
  fmt_hms None = inr placeholder /\
  (forall q : Q, (q < 0)%Q -> fmt_hms (Some (Fin q)) = inr placeholder) /\
  fmt_hms (Some PInf) = inr placeholder /\
  fmt_hms (Some NInf) = inr placeholder /\
  (forall (x : option pyfloat) (e : exn), fmt_hms x = inl e -> x = Some NaN).
Proof.
  split; [reflexivity|]. split; [exact fmt_hms_negative|].
  split; [reflexivity|]. split; [reflexivity|].
  intros x e H. destruct x as [[q | | |]|]; try discriminate; [|reflexivity].
  destruct (fmt_hms_fin_defined q) as [s Hs]. congruence.
Qed.

(** ** The frame rate read by the probe *)

Section FrameRate.

Context {builtins : Builtins}.

Lemma string_app_nil_r (s : string) : s ++ EmptyString = s.
Proof. induction s as [|c r IH]; simpl; [reflexivity | rewrite IH; reflexivity]. Qed.

Lemma string_app_assoc (a b c : string) : (a ++ b) ++ c = a ++ (b ++ c).
Proof. induction a as [|x a IH]; simpl; [reflexivity | rewrite IH; reflexivity]. Qed.

Lemma split_slash_length (cur s : string) :
  length (split_slash cur s) = S (count_char "/" s).
Proof.
  revert cur. induction s as [|c r IH]; intros cur; simpl; [reflexivity|].
  destruct (Ascii.eqb c "/"); simpl; rewrite IH; reflexivity.
Qed.

Lemma split_slash_no_slash (cur s : string) :
  count_char "/" s = O -> split_slash cur s = [cur ++ s].
Proof.
  revert cur. induction s as [|c r IH]; intros cur H; simpl in *.
  - rewrite string_app_nil_r. reflexivity.
  - destruct (Ascii.eqb c "/"); [discriminate|].
    rewrite IH by exact H. rewrite string_app_assoc. reflexivity.
Qed.

Lemma split_slash_at (cur a b : string) :
  count_char "/" a = O ->
  split_slash cur (a ++ String "/" b) = (cur ++ a) :: split_slash EmptyString b.
Proof.
  revert cur. induction a as [|c r IH]; intros cur H; simpl in *.
  - rewrite string_app_nil_r. reflexivity.
  - destruct (Ascii.eqb c "/"); [discriminate|].
    rewrite IH by exact H. rewrite string_app_assoc. reflexivity.
Qed.

(** X3: for a rate written [num/den], a denominator that reads as zero
    gives the frame rate 0 without the numerator being read; otherwise the
    rate is the quotient, and a numerator that cannot be read raises
    [ValueError]. *)
Theorem frame_rate_of_fraction :
  forall (num den : string) (d : Q),
    count_char "/" num = O -> count_char "/" den = O ->
    py_float den = Some d ->
    ((d == 0)%Q -> parse_fps (JStr (num ++ "/" ++ den)) = inr 0%Q) /\
    (forall n : Q, ~ (d == 0)%Q -> py_float num = Some n ->
                   parse_fps (JStr (num ++ "/" ++ den)) = inr (n / d)%Q) /\
    (~ (d == 0)%Q -> py_float num = None ->
     parse_fps (JStr (num ++ "/" ++ den)) = inl ValueError).
Proof.
  intros num den d Hn Hd Hden. unfold parse_fps.
  change (num ++ "/" ++ den) with (num ++ String "/" den).
  rewrite (split_slash_at EmptyString num den Hn), (split_slash_no_slash _ _ Hd).
  cbn [append]. rewrite Hden. repeat split.
  - intros Hz. apply Qeq_bool_iff in Hz. rewrite Hz. reflexivity.
  - intros n Hz Hnum. destruct (Qeq_bool d 0) eqn:E.
    + apply Qeq_bool_iff in E. contradiction.
    + rewrite Hnum. reflexivity.
  - intros Hz Hnum. destruct (Qeq_bool d 0) eqn:E.
    + apply Qeq_bool_iff in E. contradiction.
    + rewrite Hnum. reflexivity.
Qed.

(** X4: a stream without [r_frame_rate] is read as ["0/1"]; a rate that is
    not text raises [AttributeError]; text with no slash or with more than
    one raises [ValueError]. *)
Theorem frame_rate_shape :
  (forall fields : list (string * json),
      find (fun kv => String.eqb (fst kv) "r_frame_rate") fields = None ->
      get_r_frame_rate (JObj fields) = inr (JStr "0/1")) /\
  (forall text : string,
      count_char "/" text <> 1%nat -> parse_fps (JStr text) = inl ValueError) /\
  (forall v : json, (forall text, v <> JStr text) -> parse_fps v = inl AttributeError).
Proof.
  split; [|split].
  - intros fields H. unfold get_r_frame_rate. rewrite H. reflexivity.
  - intros text H. unfold parse_fps.
    pose proof (split_slash_length EmptyString text) as Hlen.
    destruct (split_slash EmptyString text) as [|a [|b [|c l]]]; try reflexivity.
    simpl in Hlen. congruence.
  - intros v H. destruct v; try reflexivity. destruct (H s eq_refl).
Qed.

End FrameRate.

Lemma frame_rate_of_fraction_witness :
  parse_fps (builtins := Demo.builtins) (JStr "abc/0") = inr 0%Q.
Proof.
  apply (proj1 (@frame_rate_of_fraction Demo.builtins "abc" "0" 0%Q
                  eq_refl eq_refl eq_refl)).
  reflexivity.
Defined.

(** ** The batch at its edges *)

Section BatchEdges.

Context {builtins : Builtins} {cfg : Config} {W : Type} {world : World W}.

Local Open Scope monad_scope.

(** X5: without a working ffmpeg, [main] raises [RuntimeError] right after
    the version query: the folders are not touched and nothing is probed
    or encoded. *)
Theorem main_without_ffmpeg :
  forall (w : W) (e : exn),
    fst (sys_run version_cmd w) = inl e ->
    main w
    = ([Run version_cmd], snd (sys_run version_cmd w),
       inl (RuntimeError "ffmpeg not found. Install it: sudo apt install ffmpeg")).
Proof.
  intros w e H. unfold main, bind, ffmpeg_exists, try_except_Exception, bind,
    run_capture, version_cmd in *.
  destruct (sys_run ["ffmpeg"; "-version"] w) as [r w1]. simpl in H. subst r.
  reflexivity.
Qed.

(** X6: with ffmpeg but without the input folder, [main] raises
    [FileNotFoundError]; the output folder is not made. *)
Theorem main_without_input_folder :
  forall (w w1 : W) (out : string),
    sys_run version_cmd w = (inr out, w1) ->
    sys_exists INPUT_DIR w1 = false ->
    main w
    = ([Run version_cmd], w1,
       inl (FileNotFoundError ("Input folder does not exist: " ++ INPUT_DIR))).
Proof.
  intros w w1 out H Hdir. unfold main, bind, ffmpeg_exists, try_except_Exception,
    bind, run_capture, version_cmd in *.
  rewrite H. cbn [ret negb]. rewrite Hdir. reflexivity.
Qed.

(** X7: when the input folder holds no video, [main] says so and returns:
    the encoders are not queried and nothing is probed. *)
Theorem main_without_videos :
  forall (w w1 w2 : W) (out : string) (found : list (path * bool)),
    sys_run version_cmd w = (inr out, w1) ->
    sys_exists INPUT_DIR w1 = true ->
    sys_mkdir OUTPUT_DIR w1 = (None, w2) ->
    sys_iterdir INPUT_DIR w2 = inr found ->
    (forall entry, In entry found -> is_video entry = false) ->
    main w = ([Run version_cmd; Print MsgNoVideos], w2, inr tt).
Proof.
  intros w w1 w2 out found H Hdir Hmk Hls Hnone.
  assert (Hf : filter is_video found = []).
  { clear Hls. induction found as [|x l IH]; [reflexivity|]. simpl.
    rewrite (Hnone x (or_introl eq_refl)). apply IH.
    intros entry Hin. apply Hnone. right. exact Hin. }
  unfold main, bind, ffmpeg_exists, try_except_Exception, bind, run_capture,
    version_cmd, mkdir_output, list_videos in *.
  rewrite H. cbn [ret negb]. rewrite Hdir. cbn [negb]. rewrite Hmk, Hls, Hf.
  reflexivity.
Qed.

(** X8: with the skip policy on, a file that is 3840 wide or more, or
    2160 high or more, is skipped in every mode: after the probe only the
    skip is printed, no output is looked for and nothing is started. *)
Theorem skip_already_4k :
  forall (mode : string) (video : path) (w w1 : W) (tp : list event)
         (duration fps : Q) (src_w src_h : Z),
    ffprobe_info video w = (tp, w1, inr (duration, src_w, src_h, fps)) ->
    SKIP_IF_4K_OR_HIGHER = true ->
    3840 <= src_w \/ 2160 <= src_h ->
    process_video mode video w
    = ((tp ++ [Print (MsgSkip4K (path_name video) src_w src_h)])%list, w1, inr tt).
Proof.
  intros mode video w w1 tp duration fps src_w src_h Hp Hskip Hbig.
  unfold process_video. unfold bind at 1. rewrite Hp, Hskip.
  assert (E : (3840 <=? src_w) || (2160 <=? src_h) = true).
  { apply orb_true_iff. destruct Hbig; [left | right]; apply Z.leb_le; assumption. }
  rewrite E. reflexivity.
Qed.

(** X9: a file whose output for the mode in force exists already is
    skipped: only the skip is printed and nothing is started. *)
Theorem skip_existing_output :
  forall (mode : string) (video : path) (w w1 : W) (tp : list event)
         (duration fps : Q) (src_w src_h : Z),
    ffprobe_info video w = (tp, w1, inr (duration, src_w, src_h, fps)) ->
    SKIP_IF_4K_OR_HIGHER && ((3840 <=? src_w) || (2160 <=? src_h)) = false ->
    sys_exists (path_str (output_for mode video)) w1 = true ->
    process_video mode video w
    = ((tp ++ [Print (MsgSkipExists (path_name (output_for mode video)))])%list,
       w1, inr tt).
Proof.
  intros mode video w w1 tp duration fps src_w src_h Hp Hskip Hex.
  unfold process_video. unfold bind at 1. rewrite Hp, Hskip.
  fold (output_for mode video).
  unfold bind at 1. unfold path_exists at 1. rewrite Hex. reflexivity.
Qed.

(** X10: outside hardware mode a file gets one software-master encode,
    and whatever that encode gives, an exception included, is the outcome
    for the file: there is no fallback. *)
Theorem software_failure_is_final :
  forall (mode : string) (video : path) (w w1 w2 : W) (tp t1 : list event)
         (duration fps : Q) (src_w src_h : Z) (r : result unit),
    String.eqb mode "intel_qsv" = false ->
    ffprobe_info video w = (tp, w1, inr (duration, src_w, src_h, fps)) ->
    SKIP_IF_4K_OR_HIGHER && ((3840 <=? src_w) || (2160 <=? src_h)) = false ->
    sys_exists (path_str (out_cpu_of video)) w1 = false ->
    encode_with_eta (out_cpu_of video) (software_cmd video src_w src_h) duration w1
    = (t1, w2, r) ->
    process_video mode video w
    = ((tp ++ Print (MsgEncoding (path_name video) src_w src_h mode) :: t1)%list, w2, r) /\
    attempts (tp ++ Print (MsgEncoding (path_name video) src_w src_h mode) :: t1)
    = [software_cmd video src_w src_h].
Proof.
  intros mode video w w1 w2 tp t1 duration fps src_w src_h r Hmode Hp Hskip Hex Henc.
  destruct (encode_with_eta_inv _ _ _ _ _ _ _ Henc) as [Hatt _].
  assert (Htp : attempts tp = []).
  { unfold ffprobe_info, bind, run_capture, lift in Hp.
    destruct (sys_run (ffprobe_cmd video) w) as [[e' | out] w3];
      injection Hp as <- _ _; reflexivity. }
  split.
  - unfold process_video. unfold bind at 1. rewrite Hp, Hskip, Hmode.
    unfold bind at 1. unfold path_exists at 1. rewrite Hex.
    unfold bind at 1. unfold print at 1.
    fold (software_cmd video src_w src_h). rewrite Henc. reflexivity.
  - rewrite attempts_app, attempts_cons, Htp, Hatt. reflexivity.
Qed.

(** X11: in hardware mode the software-master encode is tried only after
    a [RuntimeError]: a hardware encode that succeeds, or that fails in
    another way (the process cannot be started), is the outcome for the
    file. *)
Theorem hardware_outcome_without_fallback :
  forall (video : path) (w w1 w2 : W) (tp t1 : list event)
         (duration fps : Q) (src_w src_h : Z) (r : result unit),
    ffprobe_info video w = (tp, w1, inr (duration, src_w, src_h, fps)) ->
    SKIP_IF_4K_OR_HIGHER && ((3840 <=? src_w) || (2160 <=? src_h)) = false ->
    sys_exists (path_str (out_qsv_of video)) w1 = false ->
    encode_with_eta (out_qsv_of video) (hardware_cmd video src_w src_h) duration w1
    = (t1, w2, r) ->
    (forall msg, r <> inl (RuntimeError msg)) ->
    process_video "intel_qsv" video w
    = ((tp ++ Print (MsgEncoding (path_name video) src_w src_h "intel_qsv") :: t1)%list,
       w2, r) /\
    attempts (tp ++ Print (MsgEncoding (path_name video) src_w src_h "intel_qsv") :: t1)
    = [hardware_cmd video src_w src_h].
Proof.
  intros video w w1 w2 tp t1 duration fps src_w src_h r Hp Hskip Hex Henc Hr.
  destruct (encode_with_eta_inv _ _ _ _ _ _ _ Henc) as [Hatt _].
  assert (Htp : attempts tp = []).
  { unfold ffprobe_info, bind, run_capture, lift in Hp.
    destruct (sys_run (ffprobe_cmd video) w) as [[e' | out] w3];
      injection Hp as <- _ _; reflexivity. }
  split.
  - unfold process_video. unfold bind at 1. rewrite Hp, Hskip.
    change (String.eqb "intel_qsv" "intel_qsv") with true. cbv iota.
    unfold bind at 1. unfold path_exists at 1. rewrite Hex.
    unfold bind at 1. unfold print at 1.
    unfold try_except_RuntimeError. fold (hardware_cmd video src_w src_h).
    rewrite Henc. destruct r as [e | []]; [|reflexivity].
    destruct e; try reflexivity. destruct (Hr msg eq_refl).
  - rewrite attempts_app, attempts_cons, Htp, Hatt. reflexivity.
Qed.


(** The loop of [run_batch] under a mode other than hardware starts
    software-master commands only. *)
Lemma traced_run_batch_software (videos : list path) :
  String.eqb MODE "intel_qsv" = false ->
  traced W (starts_only is_cpu_master_cmd) (run_batch videos).
Proof.
  intros Hmode. unfold run_batch, intel_qsv_available.
  apply traced_bind.
  { apply traced_bind; [apply traced_ffmpeg_has_encoder; intros; exact I|].
    intros a. destruct a; [apply traced_ret|].
    apply traced_ffmpeg_has_encoder; intros; exact I. }
  intros qsv_ok. rewrite Hmode. cbn [andb negb orb].
  apply traced_bind; [apply traced_ret|]. intros _.
  apply traced_bind; [|intros _; apply traced_print; exact I].
  apply traced_for_each. intros video. apply traced_process_video_cpu, Hmode.
Qed.

(** X13: when the configured mode is not the hardware mode, the batch
    never starts a hardware command, whatever the encoder listing says:
    every ffmpeg it starts is a software-master command. *)
Theorem software_mode_never_hardware :
  forall (videos : list path) (w : W) (cmd : list string),
    String.eqb MODE "intel_qsv" = false ->
    In (Popen cmd) (fst (fst (run_batch videos w))) ->
    is_cpu_master_cmd cmd /\ ~ is_intel_qsv_cmd cmd /\ codec_of cmd = Some "libx265".
Proof.
  intros videos w cmd Hmode Hin.
  pose proof (traced_run_batch_software videos Hmode w) as H.
  rewrite Forall_forall in H. specialize (H _ Hin). simpl in H.
  split; [exact H|]. destruct H as [i [o [sw [sh ->]]]].
  split; [|reflexivity]. intros [i' [o' [sw' [sh' H]]]]. discriminate.
Qed.

(** X14: with hardware mode configured and a hardware encoder listed, no
    warning is printed and the loop over the files runs in hardware
    mode. *)
Theorem hardware_mode_kept :
  forall (videos : list path) (w : W) (t0 : list event) (w0 : W),
    MODE = "intel_qsv" ->
    intel_qsv_available w = (t0, w0, inr true) ->
    exists (t1 : list event) (w1 : W) (r : result unit),
      (for_each videos (process_video "intel_qsv") ;;; print MsgBatchComplete) w0
      = (t1, w1, r) /\
      run_batch videos w = ((t0 ++ t1)%list, w1, r) /\
      Forall (fun ev => ev = Run encoders_cmd) t0.
Proof.
  intros videos w t0 w0 Hmode Hq.
  destruct ((for_each videos (process_video "intel_qsv") ;;; print MsgBatchComplete) w0)
    as [[t1 w1] r] eqn:Eloop.
  exists t1, w1, r. split; [reflexivity|]. split.
  - unfold run_batch. unfold bind at 1. rewrite Hq, Hmode.
    change (String.eqb "intel_qsv" "intel_qsv") with true. cbn [negb andb orb].
    unfold bind at 1. unfold ret at 1.
    match goal with
    | |- context [bind ?m ?f w0] =>
        change (bind m f w0)
          with ((for_each videos (process_video "intel_qsv") ;;; print MsgBatchComplete) w0)
    end.
    rewrite Eloop. reflexivity.
  - apply (intel_qsv_available_trace _ _ _ _ Hq).
Qed.

End BatchEdges.

Lemma main_without_ffmpeg_witness :
  main (builtins := Demo.builtins) (cfg := source_config) (world := Demo.world)
    Demo.no_ffmpeg
  = ([Run version_cmd],
     {| Demo.runs := []; Demo.procs := []; Demo.files := [INPUT_DIR];
        Demo.entries := Demo.two_videos |},
     inl (RuntimeError "ffmpeg not found. Install it: sudo apt install ffmpeg")).
Proof.
  apply (@main_without_ffmpeg Demo.builtins source_config _ Demo.world
           Demo.no_ffmpeg (FileNotFoundError "ffmpeg") eq_refl).
Defined.

Lemma main_without_input_folder_witness :
  main (builtins := Demo.builtins) (cfg := source_config) (world := Demo.world)
    Demo.no_input_folder
  = ([Run version_cmd],
     {| Demo.runs := []; Demo.procs := []; Demo.files := [];
        Demo.entries := Demo.two_videos |},
     inl (FileNotFoundError ("Input folder does not exist: " ++ INPUT_DIR))).
Proof.
  apply (@main_without_input_folder Demo.builtins source_config _ Demo.world
           Demo.no_input_folder _ "ffmpeg version" eq_refl eq_refl).
Defined.

Lemma main_without_videos_witness :
  main (builtins := Demo.builtins) (cfg := source_config) (world := Demo.world)
    Demo.no_videos
  = ([Run version_cmd; Print MsgNoVideos],
     {| Demo.runs := []; Demo.procs := []; Demo.files := [INPUT_DIR];
        Demo.entries := Demo.entries Demo.no_videos |},
     inr tt).
Proof.
  apply (@main_without_videos Demo.builtins source_config _ Demo.world
           Demo.no_videos _ _ "ffmpeg version" (Demo.entries Demo.no_videos)
           eq_refl eq_refl eq_refl eq_refl).
  intros entry [<- | [<- | []]]; reflexivity.
Defined.

Lemma skip_already_4k_witness :
  process_video (builtins := Demo.builtins_2160p) (cfg := source_config)
    (world := Demo.world) "intel_qsv" Demo.video_a Demo.at_file_4k
  = ([Run (ffprobe_cmd Demo.video_a); Print (MsgSkip4K "a.mp4" 3840 2160)],
     {| Demo.runs := []; Demo.procs := [Some Demo.succeeding]; Demo.files := [];
        Demo.entries := Demo.two_videos |},
     inr tt).
Proof.
  apply (@skip_already_4k Demo.builtins_2160p source_config _ Demo.world
           "intel_qsv" Demo.video_a Demo.at_file_4k _
           [Run (ffprobe_cmd Demo.video_a)] (1200 # 10)%Q (30 / 1)%Q 3840 2160
           eq_refl eq_refl).
  left. lia.
Defined.

Lemma skip_existing_output_witness :
  process_video (builtins := Demo.builtins) (cfg := source_config)
    (world := Demo.world) "intel_qsv" Demo.video_a Demo.at_file_output_exists
  = ([Run (ffprobe_cmd Demo.video_a); Print (MsgSkipExists "a_4k_qsv.mp4")],
     {| Demo.runs := []; Demo.procs := [Some Demo.succeeding];
        Demo.files := [path_str (out_qsv_of Demo.video_a)];
        Demo.entries := Demo.two_videos |},
     inr tt).
Proof.
  apply (@skip_existing_output Demo.builtins source_config _ Demo.world
           "intel_qsv" Demo.video_a Demo.at_file_output_exists _
           [Run (ffprobe_cmd Demo.video_a)] (1200 # 10)%Q (30 / 1)%Q 1920 1080
           eq_refl eq_refl eq_refl).
Defined.

Lemma software_failure_is_final_witness :
  snd (process_video (builtins := Demo.builtins) (cfg := source_config)
         (world := Demo.world) "cpu_master" Demo.video_a Demo.at_file_encodes_fail)
  = inl (RuntimeError ("ffmpeg failed with exit code 1" ++ newline ++ "boom")).
Proof.
  rewrite (proj1
             (@software_failure_is_final Demo.builtins source_config _ Demo.world
                "cpu_master" Demo.video_a Demo.at_file_encodes_fail
                {| Demo.runs := []; Demo.procs := [Some Demo.failing; Some Demo.failing];
                   Demo.files := []; Demo.entries := Demo.two_videos |}
                {| Demo.runs := []; Demo.procs := [Some Demo.failing];
                   Demo.files := []; Demo.entries := Demo.two_videos |}
                [Run (ffprobe_cmd Demo.video_a)]
                [Print (MsgDuration "00:02:00" "a_4k_master.mp4");
                 Popen (software_cmd (cfg := source_config) Demo.video_a 1920 1080)]
                (1200 # 10)%Q (30 / 1)%Q 1920 1080
                (inl (RuntimeError ("ffmpeg failed with exit code 1" ++ newline ++ "boom")))
                eq_refl eq_refl eq_refl eq_refl eq_refl)).
  reflexivity.
Defined.

Lemma hardware_outcome_without_fallback_witness :
  snd (process_video (builtins := Demo.builtins) (cfg := source_config)
         (world := Demo.world) "intel_qsv" Demo.video_a Demo.at_file_no_process)
  = inl OSError.
Proof.
  rewrite (proj1
             (@hardware_outcome_without_fallback Demo.builtins source_config _ Demo.world
                Demo.video_a Demo.at_file_no_process
                {| Demo.runs := []; Demo.procs := [None; Some Demo.succeeding];
                   Demo.files := []; Demo.entries := Demo.two_videos |}
                {| Demo.runs := []; Demo.procs := [Some Demo.succeeding];
                   Demo.files := []; Demo.entries := Demo.two_videos |}
                [Run (ffprobe_cmd Demo.video_a)]
                [Print (MsgDuration "00:02:00" "a_4k_qsv.mp4");
                 Popen (hardware_cmd (cfg := source_config) Demo.video_a 1920 1080)]
                (1200 # 10)%Q (30 / 1)%Q 1920 1080 (inl OSError)
                eq_refl eq_refl eq_refl eq_refl
                (fun msg H => eq_ind OSError
                                (fun e => match e with OSError => True | _ => False end)
                                I _ (f_equal (fun r => match r with
                                                       | inl e => e
                                                       | inr _ => OSError
                                                       end) H)))).
  reflexivity.
Defined.

Lemma software_mode_never_hardware_witness :
  is_cpu_master_cmd (cfg := Demo.cpu_config)
    (software_cmd (cfg := Demo.cpu_config) Demo.video_a 1920 1080).
Proof.
  apply (@software_mode_never_hardware Demo.builtins Demo.cpu_config _ Demo.world
           [Demo.video_a] Demo.with_hardware
           (software_cmd (cfg := Demo.cpu_config) Demo.video_a 1920 1080) eq_refl).
  vm_compute. right. right. right. right. left. reflexivity.
Defined.

Lemma hardware_mode_kept_witness :
  exists (t1 : list event) (w1 : Demo.script) (r : result unit),
    bind (for_each [Demo.video_a]
            (process_video (builtins := Demo.builtins) (cfg := source_config)
               (world := Demo.world) "intel_qsv"))
         (fun _ => print MsgBatchComplete)
         {| Demo.runs := [inr "1080p"; inr "1080p"];
            Demo.procs := [Some Demo.succeeding; Some Demo.succeeding];
            Demo.files := [INPUT_DIR]; Demo.entries := Demo.two_videos |}
    = (t1, w1, r) /\
    run_batch (builtins := Demo.builtins) (cfg := source_config) (world := Demo.world)
      [Demo.video_a] Demo.with_hardware
    = (([Run encoders_cmd] ++ t1)%list, w1, r) /\
    Forall (fun ev => ev = Run encoders_cmd) [Run encoders_cmd].
Proof.
  apply (@hardware_mode_kept Demo.builtins source_config _ Demo.world
           [Demo.video_a] Demo.with_hardware [Run encoders_cmd]
           {| Demo.runs := [inr "1080p"; inr "1080p"];
              Demo.procs := [Some Demo.succeeding; Some Demo.succeeding];
              Demo.files := [INPUT_DIR]; Demo.entries := Demo.two_videos |}
           eq_refl eq_refl).
Defined.

(** ** The progress loop at its edges *)

Section LoopEdges.

Context {builtins : Builtins} {cfg : Config}.

(** What a line does to the printing state. *)
Lemma progress_step_cases (duration start_wall : Q) (st : state) (now : Q) (raw : string)
  (st1 : state) (out : option (report * message)) (stop : bool) :
  progress_step duration start_wall st now raw = inr (st1, out, stop) ->
  (stop = true <-> is_end_line raw) /\
  (out = None -> last_print st1 = last_print st) /\
  (out <> None ->
   last_print st1 = now /\
   ((PRINT_EVERY_SECONDS <= now - last_print st)%Q \/ stop = true)).
Proof.
  unfold progress_step, is_end_line, field_of.
  destruct (String.eqb (strip raw) EmptyString || negb (contains "=" (strip raw))).
  { intros H. injection H as <- <- <-. repeat split; try discriminate; congruence. }
  destruct (split_eq (strip raw)) as [key value].
  destruct (String.eqb_spec key "out_time_us") as [-> | H1].
  { cbn [String.eqb Ascii.eqb Bool.eqb].
    destruct (py_int value) as [n|]; intros H; injection H as <- <- <-;
      repeat split; try discriminate; congruence. }
  destruct (String.eqb_spec key "out_time_ms") as [-> | H2].
  { cbn [String.eqb Ascii.eqb Bool.eqb].
    destruct (py_int value) as [n|]; intros H; injection H as <- <- <-;
      repeat split; try discriminate; congruence. }
  destruct (String.eqb_spec key "speed") as [-> | H3].
  { destruct (py_float (remove_x (lower (strip value)))) as [v|];
      intros H; injection H as <- <- <-; repeat split; try discriminate; congruence. }
  destruct (String.eqb_spec key "progress") as [-> | H4].
  2:{ intros H. injection H as <- <- <-. repeat split; try discriminate; congruence. }
  assert (Hend : String.eqb value "end" = true <-> Some ("progress", value) = Some ("progress", "end")).
  { split.
    - intros E. apply String.eqb_eq in E. subst. reflexivity.
    - intros E. injection E as ->. reflexivity. }
  destruct (Qle_bool PRINT_EVERY_SECONDS (now - last_print st)) eqn:Ele.
  - cbn [orb].
    match goal with
    | |- context [compute_report duration start_wall ?s now] =>
        destruct (compute_report_cases duration start_wall s now) as [[m Hm] | Hm];
          rewrite Hm
    end; cbn [rbind]; intros H; [|discriminate H].
    injection H as <- <- <-.
    split; [exact Hend|]. split; [discriminate|].
    intros _. split; [reflexivity|]. left. apply Qle_bool_iff, Ele.
  - cbn [orb]. destruct (String.eqb value "end") eqn:Ev.
    + match goal with
      | |- context [compute_report duration start_wall ?s now] =>
          destruct (compute_report_cases duration start_wall s now) as [[m Hm] | Hm];
            rewrite Hm
      end; cbn [rbind]; intros H; [|discriminate H].
      injection H as <- <- <-.
      split; [exact Hend|]. split; [discriminate|].
      intros _. split; [reflexivity|]. right. reflexivity.
    + intros H. injection H as <- <- <-.
      split; [exact Hend|]. split; [reflexivity|]. intros H. congruence.
Qed.

(** X15: the loop is left at the end marker: the lines after it are not
    read, so they change neither what is printed nor the result. *)
Theorem loop_stops_at_end_marker :
  forall (duration start_wall : Q) (st : state)
         (before after : list (Q * string)) (now : Q) (raw : string),
    is_end_line raw ->
    progress_loop duration start_wall st (before ++ (now, raw) :: after)
    = progress_loop duration start_wall st (before ++ [(now, raw)]).
Proof.
  intros duration start_wall st before after now raw Hend. revert st.
  induction before as [|[t l] before IH]; intros st.
  - cbn [app progress_loop].
    destruct (progress_step_spec duration start_wall st now raw)
      as [[st1 [out [stop [E _]]]] | E]; rewrite E; [|reflexivity].
    destruct (progress_step_cases _ _ _ _ _ _ _ _ E) as [Hstop _].
    rewrite (proj2 Hstop Hend). reflexivity.
  - cbn [app progress_loop].
    destruct (progress_step_spec duration start_wall st t l)
      as [[st1 [out [stop [E _]]]] | E]; rewrite E; [|reflexivity].
    destruct stop; [reflexivity|]. rewrite IH. reflexivity.
Qed.

(** X16: a line that reports no time and no speed and is not a progress
    line (a blank line, a line without ["="], an unknown key, a known key
    with a value that cannot be read) changes nothing and prints nothing. *)
Theorem unrecognised_line_ignored :
  forall (duration start_wall : Q) (st : state) (now : Q) (raw : string),
    time_field raw = None ->
    speed_field raw = None ->
    (forall value, field_of raw <> Some ("progress", value)) ->
    progress_step duration start_wall st now raw = inr (st, None, false).
Proof.
  intros duration start_wall st now raw Ht Hs Hp.
  unfold progress_step. unfold time_field, speed_field, field_of in *.
  destruct (String.eqb (strip raw) EmptyString || negb (contains "=" (strip raw)));
    [reflexivity|].
  destruct (split_eq (strip raw)) as [key value].
  destruct (String.eqb_spec key "out_time_us") as [-> | H1].
  { cbn [String.eqb Ascii.eqb Bool.eqb] in Ht. rewrite Ht. reflexivity. }
  destruct (String.eqb_spec key "out_time_ms") as [-> | H2].
  { cbn [String.eqb Ascii.eqb Bool.eqb] in Ht.
    destruct (py_int value); [discriminate | reflexivity]. }
  destruct (String.eqb_spec key "speed") as [-> | H3].
  { cbn [String.eqb Ascii.eqb Bool.eqb] in Hs. rewrite Hs. reflexivity. }
  destruct (String.eqb_spec key "progress") as [-> | H4]; [|reflexivity].
  destruct (Hp value eq_refl).
Qed.

Lemma spaced_from (duration start_wall : Q) (lines hist : list (Q * string)) (st : state) :
  spaced (last_print st) (emissions duration start_wall hist st lines).
Proof.
  revert hist st. induction lines as [|[now raw] lines IH]; intros hist st; [exact I|].
  cbn [emissions].
  destruct (progress_step_spec duration start_wall st now raw)
    as [[st1 [out [stop [E _]]]] | E]; rewrite E; [|exact I].
  destruct (progress_step_cases _ _ _ _ _ _ _ _ E) as [Hstop [Hnone Hsome]].
  destruct out as [[r m]|].
  - destruct (Hsome ltac:(discriminate)) as [Hlp Hwhy].
    destruct stop.
    + cbn [spaced]. split; [|exact I]. right. split; [reflexivity|].
      exists hist, now, raw. split; [reflexivity | apply Hstop; reflexivity].
    + cbn [app spaced]. split.
      * left. destruct Hwhy as [Hle | Hf]; [|discriminate]. rewrite Hlp. exact Hle.
      * apply IH.
  - rewrite <- (Hnone eq_refl). destruct stop; [exact I|]. cbn [app]. apply IH.
Qed.

(** X17: reports are throttled: between one printed report and the next
    at least [PRINT_EVERY_SECONDS] pass on the clock; only the report at
    the end marker, which is the last one, is printed regardless. *)
Theorem reports_are_spaced :
  forall (duration start_wall : Q) (lines : list (Q * string)),
    spaced 0 (emissions duration start_wall [] initial_state lines).
Proof.
  intros duration start_wall lines.
  apply (spaced_from duration start_wall lines [] initial_state).
Qed.

(** X18: in every report done is at most the duration, remaining is not
    negative and percent is at most 100; for an output time and a duration
    that are not negative, done and percent are not negative either and
    remaining is at most the duration; once the output time has reached
    the duration, done is the duration, remaining is 0 and percent is
    100. *)
Theorem report_bounds :
  forall (duration start_wall : Q) (lines h : list (Q * string))
         (st : state) (r : report),
    In (h, st, r) (emissions duration start_wall [] initial_state lines) ->
    (done_sec r <= duration)%Q /\ (0 <= remaining_sec r)%Q /\ (pct r <= 100)%Q /\
    ((0 <= elapsed_output_time h)%Q -> (0 <= duration)%Q ->
     (0 <= done_sec r)%Q /\ (0 <= pct r)%Q /\ (remaining_sec r <= duration)%Q) /\
    ((duration <= elapsed_output_time h)%Q ->
     (done_sec r == duration)%Q /\ (remaining_sec r == 0)%Q /\
     ((0 < duration)%Q -> (pct r == 100)%Q)).
Proof.
  intros duration start_wall lines h st r Hin.
  destruct (emissions_tracked _ _ _ _ _ _ _ _ tracks_initial Hin)
    as [[Hus _] [[now ->] _]].
  unfold elapsed_output_time. rewrite <- Hus.
  cbn [report_of done_sec remaining_sec pct].
  set (e := (inject_Z (out_time_us st) / 1000000)%Q).
  set (done := Qmin e duration).
  assert (Hd1 : (done <= duration)%Q) by apply Q.le_min_r.
  assert (Hd2 : (done <= e)%Q) by apply Q.le_min_l.
  assert (Hr1 : (0 <= Qmax 0 (duration - done))%Q) by apply Q.le_max_l.
  assert (Hpct : forall x : Q, ((if Qpositive duration then Qmin x 100 else 0) <= 100)%Q).
  { intros x. destruct (Qpositive duration); [apply Q.le_min_r | discriminate]. }
  split; [exact Hd1|]. split; [exact Hr1|]. split; [apply Hpct|]. split.
  - intros He Hdur.
    assert (Hd0 : (0 <= done)%Q) by (apply Q.min_glb; assumption).
    split; [exact Hd0|]. split.
    + destruct (Qpositive duration) eqn:E; [|apply Qle_refl].
      apply Qpositive_spec in E. apply Q.min_glb; [|discriminate].
      assert (0 <= done / duration)%Q.
      { apply Qle_shift_div_l; [exact E|]. lra. }
      assert (0 <= 100)%Q by discriminate. nra.
    + apply Q.max_lub; lra.
  - intros He.
    assert (Hdone : (done == duration)%Q) by (apply Q.min_r; exact He).
    split; [exact Hdone|]. split.
    + apply Q.max_l. lra.
    + intros Hpos. apply Qpositive_spec in Hpos as E. rewrite E.
      assert (Hq : (done / duration * 100 == 100)%Q).
      { rewrite Hdone. field. lra. }
      rewrite Hq. apply Q.min_l. apply Qle_refl.
Qed.

Lemma percent_increasing (duration e1 e2 : Q) :
  (0 < duration)%Q -> (e1 <= e2)%Q ->
  (Qmin (Qmin e1 duration / duration * 100) 100
   <= Qmin (Qmin e2 duration / duration * 100) 100)%Q.
Proof.
  intros Hd He. apply Q.min_le_compat_r.
  assert (H1 : (Qmin e1 duration <= Qmin e2 duration)%Q)
    by (apply Q.min_le_compat_r; exact He).
  assert (H2 : (0 <= / duration)%Q) by (apply Qinv_le_0_compat; lra).
  unfold Qdiv.
  apply Qmult_le_compat_r; [|discriminate].
  apply Qmult_le_compat_r; assumption.
Qed.

(** X19: for a duration above zero the percentage never goes down as the
    output time goes up: of two reports of one encode, the one with the
    larger elapsed output time has the larger or the same percentage. *)
Theorem percent_is_monotone :
  forall (duration start_wall : Q) (lines h1 h2 : list (Q * string))
         (st1 st2 : state) (r1 r2 : report),
    (0 < duration)%Q ->
    In (h1, st1, r1) (emissions duration start_wall [] initial_state lines) ->
    In (h2, st2, r2) (emissions duration start_wall [] initial_state lines) ->
    (elapsed_output_time h1 <= elapsed_output_time h2)%Q ->
    (pct r1 <= pct r2)%Q.
Proof.
  intros duration start_wall lines h1 h2 st1 st2 r1 r2 Hd Hin1 Hin2 Hle.
  destruct (emissions_tracked _ _ _ _ _ _ _ _ tracks_initial Hin1)
    as [[Hus1 _] [[now1 ->] _]].
  destruct (emissions_tracked _ _ _ _ _ _ _ _ tracks_initial Hin2)
    as [[Hus2 _] [[now2 ->] _]].
  unfold elapsed_output_time in Hle. rewrite <- Hus1, <- Hus2 in Hle.
  cbn [report_of pct]. apply Qpositive_spec in Hd as E. rewrite E.
  apply percent_increasing; assumption.
Qed.

(** *** The newest sample stays in the buffer *)

Lemma evict_keeps_last (cutoff : Q) (l : list (Q * Q)) (x : Q * Q) :
  (cutoff <= fst x)%Q -> exists front, evict cutoff (l ++ [x]) = (front ++ [x])%list.
Proof.
  intros Hx. induction l as [|[t v] l IH].
  - exists []. destruct x as [tx vx]. cbn [app evict]. simpl in Hx.
    destruct (tx ?= cutoff)%Q eqn:E; try reflexivity.
    apply Qlt_alt in E. lra.
  - cbn [app evict]. destruct (t ?= cutoff)%Q.
    + exists ((t, v) :: l). reflexivity.
    + exact IH.
    + exists ((t, v) :: l). reflexivity.
Qed.

Lemma holds_latest_step (duration start_wall : Q) (h : list (Q * string)) (st : state)
  (now : Q) (raw : string) (st1 : state) (out : option (report * message)) (stop : bool) :
  (0 <= ETA_AVG_WINDOW_SECONDS)%Q ->
  holds_latest h st ->
  progress_step duration start_wall st now raw = inr (st1, out, stop) ->
  holds_latest (h ++ [(now, raw)]) st1.
Proof.
  intros HW [Hnil Hlast] Hstep.
  destruct (progress_step_inr _ _ _ _ _ _ _ _ Hstep) as [_ [_ [E3 _]]].
  unfold holds_latest. rewrite all_samples_snoc. simpl fst. simpl snd. rewrite E3.
  destruct (speed_field raw) as [v|].
  - split.
    + intros H. destruct (all_samples h); discriminate.
    + intros older x H. apply app_inj_tail in H. destruct H as [_ <-].
      apply evict_keeps_last. simpl. lra.
  - rewrite app_nil_r. split; [exact Hnil | exact Hlast].
Qed.

Lemma emissions_invariant (Inv : list (Q * string) -> state -> Prop)
  (duration start_wall : Q) :
  (forall h st now raw st1 out stop,
      Inv h st -> progress_step duration start_wall st now raw = inr (st1, out, stop) ->
      Inv (h ++ [(now, raw)])%list st1) ->
  forall (lines hist : list (Q * string)) (st : state),
    Inv hist st ->
    forall h st' r,
      In (h, st', r) (emissions duration start_wall hist st lines) -> Inv h st'.
Proof.
  intros Hstep. induction lines as [|[now raw] lines IH]; intros hist st Hi h st' r Hin.
  - contradiction.
  - cbn [emissions] in Hin.
    destruct (progress_step_spec duration start_wall st now raw)
      as [[st1 [out [stop [E _]]]] | E]; rewrite E in Hin; [|contradiction].
    pose proof (Hstep _ _ _ _ _ _ _ Hi E) as Hi1.
    assert (Hhere : In (h, st', r)
                      match out with
                      | Some (r0, _) => [((hist ++ [(now, raw)])%list, st1, r0)]
                      | None => []
                      end -> Inv h st').
    { destruct out as [[r0 m]|]; [|contradiction].
      intros [Heq | []]. injection Heq as <- <- <-. exact Hi1. }
    destruct stop; [apply Hhere, Hin|].
    apply in_app_or in Hin. destruct Hin as [Hin | Hin]; [apply Hhere, Hin|].
    apply (IH _ _ Hi1 _ _ _ Hin).
Qed.

(** X20: with a window that is not negative, the buffer is empty only
    while no speed sample has been received; from the first sample on it
    ends with the latest sample, so every report has an average. *)
Theorem newest_sample_is_buffered :
  forall (duration start_wall : Q) (lines h : list (Q * string))
         (st : state) (r : report),
    (0 <= ETA_AVG_WINDOW_SECONDS)%Q ->
    In (h, st, r) (emissions duration start_wall [] initial_state lines) ->
    (all_samples h = [] -> speed_samples st = [] /\ avg_speed r = None) /\
    (forall older x,
        all_samples h = (older ++ [x])%list ->
        (exists front, speed_samples st = (front ++ [x])%list) /\
        avg_speed r <> None).
Proof.
  intros duration start_wall lines h st r HW Hin.
  assert (Hinit : holds_latest [] initial_state).
  { split; [reflexivity|]. intros older x H. destruct older; discriminate. }
  pose proof (emissions_invariant holds_latest duration start_wall
                (fun h0 st0 now raw st1 out stop Hi E =>
                   holds_latest_step _ _ _ _ _ _ _ _ _ HW Hi E)
                lines [] initial_state Hinit h st r Hin) as [Hnil Hlast].
  destruct (emissions_tracked _ _ _ _ _ _ _ _ tracks_initial Hin)
    as [_ [[now ->] _]].
  cbn [report_of avg_speed]. split.
  - intros H. rewrite (Hnil H). split; reflexivity.
  - intros older x H. destruct (Hlast older x H) as [front Hf].
    split; [exists front; exact Hf|].
    rewrite Hf. destruct front; discriminate.
Qed.

End LoopEdges.

Lemma loop_stops_at_end_marker_witness :
  progress_loop (builtins := Demo.builtins) (cfg := source_config) 120 999 initial_state
    (Demo.scenario_lines ++ [(1003, "speed=9x"); (1004, "progress=end")]%Q)
  = progress_loop (builtins := Demo.builtins) (cfg := source_config) 120 999
      initial_state Demo.scenario_lines.
Proof.
  apply (@loop_stops_at_end_marker Demo.builtins source_config 120 999 initial_state
           [(1000, "speed=2.0x"); (1001, "out_time_us=60000000")]%Q
           [(1003, "speed=9x"); (1004, "progress=end")]%Q 1002 "progress=end").
  reflexivity.
Defined.

Lemma unrecognised_line_ignored_witness :
  progress_step (builtins := Demo.builtins) (cfg := source_config) 120 999
    initial_state 1000 "out_time_us=N/A"
  = inr (initial_state, None, false).
Proof.
  apply (@unrecognised_line_ignored Demo.builtins source_config 120 999 initial_state
           1000 "out_time_us=N/A" eq_refl eq_refl).
  intros value H. discriminate H.
Defined.

Lemma report_bounds_witness :
  exists (h : list (Q * string)) (st : state) (r : report),
    In (h, st, r)
      (emissions (builtins := Demo.builtins) (cfg := source_config) 120 999 []
         initial_state Demo.scenario_lines) /\
    (done_sec r <= 120)%Q /\ (0 <= remaining_sec r)%Q /\ (pct r <= 100)%Q.
Proof.
  eexists _, _, _. split; [left; reflexivity|].
  destruct (@report_bounds Demo.builtins source_config 120 999 Demo.scenario_lines
              _ _ _ (or_introl eq_refl)) as [H1 [H2 [H3 _]]].
  split; [exact H1|]. split; [exact H2 | exact H3].
Defined.

Lemma percent_is_monotone_witness :
  exists (h1 h2 : list (Q * string)) (st1 st2 : state) (r1 r2 : report),
    In (h1, st1, r1)
      (emissions (builtins := Demo.builtins) (cfg := source_config) 120 999 []
         initial_state Demo.two_report_lines) /\
    In (h2, st2, r2)
      (emissions (builtins := Demo.builtins) (cfg := source_config) 120 999 []
         initial_state Demo.two_report_lines) /\
    (pct r1 <= pct r2)%Q.
Proof.
  eexists _, _, _, _, _, _.
  split; [left; reflexivity|]. split; [right; left; reflexivity|].
  apply (@percent_is_monotone Demo.builtins source_config 120 999
           Demo.two_report_lines _ _ _ _ _ _ eq_refl
           (or_introl eq_refl) (or_intror (or_introl eq_refl))).
  vm_compute. discriminate.
Defined.

Lemma newest_sample_is_buffered_witness :
  exists (h : list (Q * string)) (st : state) (r : report),
    In (h, st, r)
      (emissions (builtins := Demo.builtins) (cfg := source_config) 120 999 []
         initial_state Demo.scenario_lines) /\
    exists front, speed_samples st = (front ++ [(1000, 20 # 10)])%list%Q.
Proof.
  eexists _, _, _. split; [left; reflexivity|].
  assert (Hw : (0 <= ETA_AVG_WINDOW_SECONDS (Config := source_config))%Q)
    by (unfold Qle; simpl; lia).
  apply (proj2 (@newest_sample_is_buffered Demo.builtins source_config 120 999
                  Demo.scenario_lines _ _ _ Hw (or_introl eq_refl))
           [] (1000, 20 # 10)%Q eq_refl).
Defined.

(** ** Files and names *)

Lemma string_length_app (a b : string) :
  String.length (a ++ b) = (String.length a + String.length b)%nat.
Proof. induction a as [|c a IH]; simpl; [reflexivity | rewrite IH; reflexivity]. Qed.

Lemma string_app_inv_head (a b c : string) : a ++ b = a ++ c -> b = c.
Proof. induction a as [|x a IH]; simpl; intros H; [exact H | injection H; exact IH]. Qed.

(** Two ways of cutting one text in two overlap in a middle part. *)
Lemma string_app_eq_app (a b s1 s2 : string) :
  a ++ s1 = b ++ s2 ->
  (exists x, a = b ++ x /\ x ++ s1 = s2) \/ (exists x, b = a ++ x /\ s1 = x ++ s2).
Proof.
  revert b. induction a as [|c a IH]; intros b H.
  - right. exists b. split; [reflexivity | exact H].
  - destruct b as [|d b].
    + left. exists (String c a). split; [reflexivity | exact H].
    + simpl in H. injection H as -> H. destruct (IH b H) as [[x [-> Hx]] | [x [-> Hx]]].
      * left. exists x. split; [reflexivity | exact Hx].
      * right. exists x. split; [reflexivity | exact Hx].
Qed.

Lemma string_app_inv_tail (a b c : string) : a ++ c = b ++ c -> a = b.
Proof.
  intros H. destruct (string_app_eq_app a b c c H) as [[x [-> Hx]] | [x [-> Hx]]].
  - apply (f_equal String.length) in Hx. rewrite string_length_app in Hx.
    destruct x; [rewrite string_app_nil_r; reflexivity | simpl in Hx; lia].
  - apply (f_equal String.length) in Hx. rewrite string_length_app in Hx.
    destruct x; [rewrite string_app_nil_r; reflexivity | simpl in Hx; lia].
Qed.

Lemma output_names_differ (a b : string) : a ++ "_4k_qsv.mp4" <> b ++ "_4k_master.mp4".
Proof.
  intros H. destruct (string_app_eq_app _ _ _ _ H) as [[x [_ Hx]] | [x [_ Hx]]].
  - destruct x as [|c1 [|c2 [|c3 [|c4 x]]]]; try discriminate Hx.
    simpl in Hx. injection Hx as _ _ _ _ Hx.
    apply (f_equal String.length) in Hx. rewrite string_length_app in Hx.
    simpl in Hx. lia.
  - apply (f_equal String.length) in Hx. rewrite string_length_app in Hx.
    simpl in Hx. lia.
Qed.

(** X21: the hardware output of one video is never the software-master
    output of any video, and two videos write to one output of a mode
    exactly when they have the same stem. *)
Theorem outputs_collide_only_on_stems :
  forall v1 v2 : path,
    path_str (out_qsv_of v1) <> path_str (out_cpu_of v2) /\
    (path_str (out_qsv_of v1) = path_str (out_qsv_of v2) <-> path_stem v1 = path_stem v2) /\
    (path_str (out_cpu_of v1) = path_str (out_cpu_of v2) <-> path_stem v1 = path_stem v2).
Proof.
  intros v1 v2. unfold path_str, out_qsv_of, out_cpu_of, output_path. cbn [path_dir path_name].
  split; [|split].
  - intros H. apply string_app_inv_head in H. apply string_app_inv_head in H.
    apply (output_names_differ _ _ H).
  - split.
    + intros H. apply string_app_inv_head in H. apply string_app_inv_head in H.
      apply (string_app_inv_tail _ _ _ H).
    + intros ->. reflexivity.
  - split.
    + intros H. apply string_app_inv_head in H. apply string_app_inv_head in H.
      apply (string_app_inv_tail _ _ _ H).
    + intros ->. reflexivity.
Qed.

Section Files.

Context {W : Type} {world : World W}.

(** X22: the videos of a run are the regular files of the input folder
    whose suffix, in lower case, is one of [VIDEO_EXTENSIONS], in the
    order the folder lists them; a folder that cannot be listed raises. *)
Theorem list_videos_selects :
  forall (w : W),
    (forall e, sys_iterdir INPUT_DIR w = inl e -> list_videos w = ([], w, inl e)) /\
    (forall found,
        sys_iterdir INPUT_DIR w = inr found ->
        exists videos,
          list_videos w = ([], w, inr videos) /\
          (exists keep_it, videos = map fst (filter keep_it found)) /\
          forall p, In p videos <->
                    In (p, true) found /\
                    In (lower (path_suffix p)) VIDEO_EXTENSIONS).
Proof.
  intros w. unfold list_videos. split.
  - intros e ->. reflexivity.
  - intros found ->. exists (map fst (filter is_video found)).
    split; [reflexivity|]. split; [exists is_video; reflexivity|].
    intros p. rewrite in_map_iff. split.
    + intros [[q isf] [Hq Hin]]. simpl in Hq. subst q.
      apply filter_In in Hin. destruct Hin as [Hin Hv].
      unfold is_video in Hv. cbn [fst snd] in Hv. apply andb_true_iff in Hv.
      destruct Hv as [-> Hext]. split; [exact Hin|].
      apply existsb_exists in Hext. destruct Hext as [x [Hx E]].
      apply String.eqb_eq in E. rewrite E. exact Hx.
    + intros [Hin Hext]. exists (p, true). split; [reflexivity|].
      apply filter_In. split; [exact Hin|].
      unfold is_video. cbn [fst snd andb]. apply existsb_exists.
      exists (lower (path_suffix p)). split; [exact Hext | apply String.eqb_refl].
Qed.

End Files.

(** ** The line printed when the hardware encode has failed *)

Lemma one_line_app (a b : string) : one_line a -> one_line b -> one_line (a ++ b).
Proof.
  induction a as [|c a IH]; simpl; intros Ha Hb; [exact Hb|].
  destruct Ha as [Hc Ha]. split; [exact Hc | apply IH; assumption].
Qed.

Lemma one_line_digits (d : Decimal.uint) : one_line (NilEmpty.string_of_uint d).
Proof. induction d; simpl; try exact I; (split; [reflexivity | assumption]). Qed.

Lemma one_line_str_of_int (n : Z) : one_line (str_of_int n).
Proof.
  unfold str_of_int, NilZero.string_of_int, NilZero.string_of_uint.
  destruct (Z.to_int n) as [d | d].
  - destruct d; try apply one_line_digits. simpl. auto.
  - split; [reflexivity|]. destruct d; try apply one_line_digits. simpl. auto.
Qed.

Lemma splitlines_from_one_line (cur a s : string) :
  one_line a -> splitlines_from cur (a ++ s) = splitlines_from (cur ++ a) s.
Proof.
  revert cur. induction a as [|c a IH]; intros cur Ha.
  - rewrite string_app_nil_r. reflexivity.
  - destruct Ha as [Hc Ha]. cbn [append splitlines_from]. rewrite Hc.
    rewrite (IH _ Ha), string_app_assoc. reflexivity.
Qed.

(** The last line of a first line [p] followed by a line feed and [rest]. *)
Lemma last_line_after_first (p rest : string) :
  one_line p ->
  (rest = EmptyString -> last_line (p ++ newline ++ rest) = inr p) /\
  (rest <> EmptyString -> last_line (p ++ newline ++ rest) = last_line rest).
Proof.
  intros Hp. unfold last_line, splitlines.
  rewrite (splitlines_from_one_line EmptyString p _ Hp). cbn [append]. split.
  - intros ->. reflexivity.
  - intros Hne. unfold newline. cbn [append splitlines_from].
    change (is_line_break "010") with true. cbv iota.
    destruct rest as [|c2 r2]; [congruence|].
    change (Ascii.eqb "010" "013") with false. cbn [andb]. cbv iota.
    pose proof (splitlines_from_nonempty EmptyString (String c2 r2)
                  (or_intror Hne)) as HL.
    destruct (splitlines_from EmptyString (String c2 r2)) as [|x xs]; [congruence|].
    cbn [rev]. destruct (rev xs ++ [x])%list as [|l ls] eqn:E.
    + destruct (rev xs); discriminate.
    + reflexivity.
Qed.

Section FallbackLine.

Context {builtins : Builtins} {cfg : Config} {W : Type} {world : World W}.

(** X23: after a hardware encode that ended with exit code [rc], the
    fallback first prints that the hardware encode failed and then one line
    of the error: the last line of ffmpeg's standard error, or the line
    with the exit code when the standard error is empty. *)
Theorem fallback_prints_last_error_line :
  forall (video : path) (src_w src_h : Z) (duration : Q)
         (rc : Z) (stderr : string) (w : W),
    exists (l : string) (rest : list event) (w' : W) (r : result unit),
      cpu_fallback video src_w src_h duration
        ("ffmpeg failed with exit code " ++ str_of_int rc ++ newline ++ stderr) w
      = (Print MsgQsvFailed :: Print (MsgLine l) :: rest, w', r) /\
      (stderr = EmptyString -> l = "ffmpeg failed with exit code " ++ str_of_int rc) /\
      (stderr <> EmptyString -> last_line stderr = inr l).
Proof.
  intros video src_w src_h duration rc stderr w.
  set (p := "ffmpeg failed with exit code " ++ str_of_int rc).
  assert (Hp : one_line p).
  { apply one_line_app; [|apply one_line_str_of_int]. simpl. repeat split. }
  assert (Hmsg : "ffmpeg failed with exit code " ++ str_of_int rc ++ newline ++ stderr
                 = p ++ newline ++ stderr).
  { unfold p. rewrite string_app_assoc. reflexivity. }
  rewrite Hmsg. destruct (last_line_after_first p stderr Hp) as [Hempty Hfull].
  assert (Hl : exists l, last_line (p ++ newline ++ stderr) = inr l /\
                         (stderr = EmptyString -> l = p) /\
                         (stderr <> EmptyString -> last_line stderr = inr l)).
  { destruct stderr as [|c s].
    - exists p. split; [apply Hempty; reflexivity|]. split; [reflexivity | congruence].
    - destruct (last_line_defined (String c s) ltac:(discriminate)) as [l Hlast].
      exists l. split; [rewrite Hfull by discriminate; exact Hlast|].
      split; [discriminate | intros _; exact Hlast]. }
  destruct Hl as [l [Hl [H1 H2]]].
  unfold cpu_fallback. unfold bind at 1. unfold print at 1.
  unfold bind at 1. unfold lift at 1. rewrite Hl.
  unfold bind at 1. unfold print at 1.
  match goal with
  | |- context [bind ?m ?f w] => destruct (bind m f w) as [[rest w'] r]
  end.
  exists l, rest, w', r. split; [reflexivity|]. split; [exact H1 | exact H2].
Qed.

End FallbackLine.

(** ** The estimate at the end of the encode *)

Section Completion.

Context {builtins : Builtins} {cfg : Config}.

(** X24: once the output time has reached the duration, a report with an
    effective speed above zero shows an ETA of zero. *)
Theorem eta_zero_at_completion :
  forall (duration start_wall : Q) (lines h : list (Q * string))
         (st : state) (r : report),
    In (h, st, r) (emissions duration start_wall [] initial_state lines) ->
    (duration <= elapsed_output_time h)%Q ->
    (0 < use_speed r)%Q ->
    exists e : Q, eta_sec r = Fin e /\ (e == 0)%Q.
Proof.
  intros duration start_wall lines h st r Hin Hdone Huse.
  destruct (emissions_tracked _ _ _ _ _ _ _ _ tracks_initial Hin)
    as [[Hus _] [[now ->] _]].
  unfold elapsed_output_time in Hdone. rewrite <- Hus in Hdone.
  cbn [report_of use_speed eta_sec] in *.
  apply Qpositive_spec in Huse as E. rewrite E.
  eexists. split; [reflexivity|].
  set (done := Qmin (inject_Z (out_time_us st) / 1000000) duration).
  assert (Hd : (done == duration)%Q) by (apply Q.min_r; exact Hdone).
  assert (Hr : (Qmax 0 (duration - done) == 0)%Q) by (apply Q.max_l; lra).
  rewrite Hr. field. lra.
Qed.

End Completion.

Lemma eta_zero_at_completion_witness :
  exists (h : list (Q * string)) (st : state) (r : report),
    In (h, st, r)
      (emissions (builtins := Demo.builtins) (cfg := source_config) 120 999 []
         initial_state Demo.finished_lines) /\
    exists e : Q, eta_sec r = Fin e /\ (e == 0)%Q.
Proof.
  eexists _, _, _. split; [left; reflexivity|].
  apply (@eta_zero_at_completion Demo.builtins source_config 120 999
           Demo.finished_lines _ _ _ (or_introl eq_refl)).
  - vm_compute. discriminate.
  - reflexivity.
Defined.
